(** * DxvkDevice: resource pooling, queue submission and statistics

    A shallow embedding of [src/dxvk/dxvk_device.cpp].  The device is a
    record of its members, the objects it hands out through [Rc<>] live
    in a store indexed by address, and every method is a computation in a
    state-and-failure monad that also records, in order, the primitive
    actions it performs (lock operations, recycler traffic, calls into
    the driver, log lines). *)

From Stdlib Require Import ZArith NArith String.
From stdpp Require Import base numbers option list gmap.

Local Open Scope N_scope.

(** ** Vulkan scalar types and constants

    Integer types are modelled by [N] (unsigned) and [Z] (the signed
    [VkResult] enumeration).  The numeric values are those of the Vulkan
    API headers. *)

Abbreviation VkResult := Z (only parsing).
Abbreviation VkDeviceSize := N (only parsing).
Abbreviation VkFlags := N (only parsing).
Abbreviation VkBool32 := N (only parsing).
Abbreviation VkSemaphore := N (only parsing).
Abbreviation VkQueue := N (only parsing).

Definition VK_SUCCESS : VkResult := 0%Z.
Definition VK_ERROR_DEVICE_LOST : VkResult := (-4)%Z.
Definition VK_ERROR_OUT_OF_DATE_KHR : VkResult := (-1000001004)%Z.

Definition VK_PIPELINE_STAGE_VERTEX_SHADER_BIT : VkFlags := 0x8.
Definition VK_PIPELINE_STAGE_TESSELLATION_CONTROL_SHADER_BIT : VkFlags := 0x10.
Definition VK_PIPELINE_STAGE_TESSELLATION_EVALUATION_SHADER_BIT : VkFlags := 0x20.
Definition VK_PIPELINE_STAGE_GEOMETRY_SHADER_BIT : VkFlags := 0x40.
Definition VK_PIPELINE_STAGE_FRAGMENT_SHADER_BIT : VkFlags := 0x80.
Definition VK_PIPELINE_STAGE_COMPUTE_SHADER_BIT : VkFlags := 0x800.
Definition VK_PIPELINE_STAGE_TRANSFER_BIT : VkFlags := 0x1000.
Definition VK_PIPELINE_STAGE_HOST_BIT : VkFlags := 0x4000.
Definition VK_BUFFER_USAGE_TRANSFER_SRC_BIT : VkFlags := 0x1.
Definition VK_ACCESS_TRANSFER_READ_BIT : VkFlags := 0x800.
Definition VK_ACCESS_HOST_WRITE_BIT : VkFlags := 0x4000.
Definition VK_MEMORY_PROPERTY_HOST_VISIBLE_BIT : VkFlags := 0x2.
Definition VK_MEMORY_PROPERTY_HOST_COHERENT_BIT : VkFlags := 0x4.

(** [flags] contains every bit of [bits]. *)
Definition has_flags (flags bits : VkFlags) : Prop := N.land flags bits = bits.

(** Truncation of an unsigned value to 64 and to 32 bits. *)
Definition wrap64 (n : N) : N := n mod 2 ^ 64.
Definition wrap32 (n : N) : N := n mod 2 ^ 32.

(** ** Statistics counters *)

(** The counter identifiers that the device code names, and the rest of
    the enumeration, which it only ever moves around in bulk. *)
Inductive DxvkStatCounter : Type :=
  | MemoryAllocated
  | MemoryUsed
  | PipeCountGraphics
  | PipeCountCompute
  | QueueSubmitCount
  | QueuePresentCount
  | OtherCounter (index : nat).

#[global] Instance DxvkStatCounter_eq_dec : EqDecision DxvkStatCounter.
Proof. solve_decision. Defined.

(** Modelled from the spec: the class [DxvkStatCounters] (its header is
    not among the sources).  A counter set maps each identifier to a
    64-bit accumulator; [addCtr] increments one entry, [merge] adds every
    entry of another set, a fresh set is all zero. *)
Definition DxvkStatCounters : Type := DxvkStatCounter -> N.

Definition zeroCounters : DxvkStatCounters := fun _ => 0.

Definition getCtr (c : DxvkStatCounters) (ctr : DxvkStatCounter) : N := c ctr.

Definition setCtr (c : DxvkStatCounters) (ctr : DxvkStatCounter) (val : N)
  : DxvkStatCounters :=
  fun k => if decide (k = ctr) then val else c k.

Definition addCtr (c : DxvkStatCounters) (ctr : DxvkStatCounter) (val : N)
  : DxvkStatCounters :=
  fun k => if decide (k = ctr) then wrap64 (c k + val) else c k.

Definition merge (c other : DxvkStatCounters) : DxvkStatCounters :=
  fun k => wrap64 (c k + other k).

(** ** Objects reachable through [Rc<>] *)

(** Addresses of reference-counted objects.  A nullable [Rc<T>] is an
    [option loc]. *)
Abbreviation loc := positive (only parsing).

Record DxvkBufferCreateInfo : Type := {
  info_size : VkDeviceSize;
  info_usage : VkFlags;
  info_stages : VkFlags;
  info_access : VkFlags
}.

Record DxvkBuffer : Type := {
  buf_info : DxvkBufferCreateInfo;
  buf_memFlags : VkFlags
}.

(** Modelled from the spec: the class [DxvkStagingBuffer].  It wraps one
    buffer, has the fixed size of that buffer, and a write position that
    [reset] puts back to the start (the empty, writable state). *)
Record DxvkStagingBuffer : Type := {
  m_buffer : loc;
  m_bufferSize : VkDeviceSize;
  m_bufferOffset : VkDeviceSize
}.

Definition staging_reset_state (b : DxvkStagingBuffer) : DxvkStagingBuffer :=
  {| m_buffer := m_buffer b; m_bufferSize := m_bufferSize b; m_bufferOffset := 0 |}.

(** Modelled from the spec: the class [DxvkCommandList], as far as the
    device looks at it: the queue family it was created for, the commands
    recorded into it and the statistics accumulated while recording. *)
Record DxvkCommandList : Type := {
  cl_queueFamily : N;
  cl_recorded : N;
  cl_statCounters : DxvkStatCounters
}.

(** Modelled from the spec: the class [DxvkDescriptorPool], a block from
    which descriptor sets are carved; [dp_allocated] counts the sets
    handed out since it was last emptied. *)
Record DxvkDescriptorPool : Type := {
  dp_allocated : N
}.

(** ** The primitive actions a method performs *)

Inductive Lock : Type := SubmissionLock | StatLock.

#[global] Instance Lock_eq_dec : EqDecision Lock.
Proof. solve_decision. Defined.

Inductive Pool : Type := CommandLists | DescriptorPools | StagingBuffers.

Inductive Kind : Type := KBuffer | KStagingBuffer | KCommandList | KDescriptorPool.

(** Calls that leave the device and come back with a [VkResult]. *)
Inductive ExternalCall : Type :=
  | CallSubmit (commandList : loc) (queue : VkQueue) (waitSync wakeSync : VkSemaphore)
  | CallPresent (presenter : loc) (semaphore : VkSemaphore).

Inductive Event : Type :=
  | EvAcquire (l : Lock)
  | EvRelease (l : Lock)
  | EvStatMerge (commandList : loc)
  | EvStatAdd (ctr : DxvkStatCounter) (val : N)
  | EvStatRead
  | EvRetrieve (p : Pool) (r : option loc)
  | EvReturn (p : Pool) (obj : loc)
  | EvNew (k : Kind) (obj : loc)
  | EvReset (buffer : loc)
  | EvExternal (c : ExternalCall) (r : VkResult)
  | EvTrack (commandList : loc)
  | EvLogErr (msg : string) (status : VkResult).

(** ** The device and its surroundings *)

Record DxvkDeviceFeatures : Type := {
  geometryShader : VkBool32;
  tessellationShader : VkBool32
}.

Record DxvkAdapter : Type := {
  graphicsQueueFamily : N;
  presentQueueFamily : N
}.

Record DxvkDeviceQueue : Type := {
  queueFamily : N;
  queueHandle : VkQueue
}.

Record DxvkMemoryStats : Type := {
  memoryAllocated : N;
  memoryUsed : N
}.

Record DxvkPipelineCount : Type := {
  numGraphicsPipelines : N;
  numComputePipelines : N
}.

(** The members of [DxvkDevice] that the methods below touch, the store
    of shared objects, and the record of actions, newest first.  The
    recyclers are modelled from the spec (the template [DxvkRecycler] is
    not among the sources): an idle set with free-list behaviour. *)
Record State : Type := {
  m_adapter : DxvkAdapter;
  m_features : DxvkDeviceFeatures;
  m_graphicsQueue : DxvkDeviceQueue;
  m_presentQueue : DxvkDeviceQueue;
  m_memory : DxvkMemoryStats;
  m_pipelineManager : DxvkPipelineCount;
  m_recycledCommandLists : list loc;
  m_recycledDescriptorPools : list loc;
  m_recycledStagingBuffers : list loc;
  m_statCounters : DxvkStatCounters;
  m_submissionQueue : list loc;
  buffers : gmap loc DxvkBuffer;
  stagingBuffers : gmap loc DxvkStagingBuffer;
  commandLists : gmap loc DxvkCommandList;
  descriptorPools : gmap loc DxvkDescriptorPool;
  trace : list Event
}.

(** *** Field updates *)

Definition push_event (e : Event) (s : State) : State :=
  Build_State (m_adapter s) (m_features s) (m_graphicsQueue s) (m_presentQueue s)
    (m_memory s) (m_pipelineManager s)
    (m_recycledCommandLists s) (m_recycledDescriptorPools s) (m_recycledStagingBuffers s)
    (m_statCounters s) (m_submissionQueue s)
    (buffers s) (stagingBuffers s) (commandLists s) (descriptorPools s)
    (e :: trace s).

Definition recycled (p : Pool) (s : State) : list loc :=
  match p with
  | CommandLists => m_recycledCommandLists s
  | DescriptorPools => m_recycledDescriptorPools s
  | StagingBuffers => m_recycledStagingBuffers s
  end.

Definition set_recycled (p : Pool) (idle : list loc) (s : State) : State :=
  Build_State (m_adapter s) (m_features s) (m_graphicsQueue s) (m_presentQueue s)
    (m_memory s) (m_pipelineManager s)
    (match p with CommandLists => idle | _ => m_recycledCommandLists s end)
    (match p with DescriptorPools => idle | _ => m_recycledDescriptorPools s end)
    (match p with StagingBuffers => idle | _ => m_recycledStagingBuffers s end)
    (m_statCounters s) (m_submissionQueue s)
    (buffers s) (stagingBuffers s) (commandLists s) (descriptorPools s)
    (trace s).

Definition set_statCounters (c : DxvkStatCounters) (s : State) : State :=
  Build_State (m_adapter s) (m_features s) (m_graphicsQueue s) (m_presentQueue s)
    (m_memory s) (m_pipelineManager s)
    (m_recycledCommandLists s) (m_recycledDescriptorPools s) (m_recycledStagingBuffers s)
    c (m_submissionQueue s)
    (buffers s) (stagingBuffers s) (commandLists s) (descriptorPools s)
    (trace s).

Definition set_submissionQueue (q : list loc) (s : State) : State :=
  Build_State (m_adapter s) (m_features s) (m_graphicsQueue s) (m_presentQueue s)
    (m_memory s) (m_pipelineManager s)
    (m_recycledCommandLists s) (m_recycledDescriptorPools s) (m_recycledStagingBuffers s)
    (m_statCounters s) q
    (buffers s) (stagingBuffers s) (commandLists s) (descriptorPools s)
    (trace s).

Definition set_buffers (h : gmap loc DxvkBuffer) (s : State) : State :=
  Build_State (m_adapter s) (m_features s) (m_graphicsQueue s) (m_presentQueue s)
    (m_memory s) (m_pipelineManager s)
    (m_recycledCommandLists s) (m_recycledDescriptorPools s) (m_recycledStagingBuffers s)
    (m_statCounters s) (m_submissionQueue s)
    h (stagingBuffers s) (commandLists s) (descriptorPools s)
    (trace s).

Definition set_stagingBuffers (h : gmap loc DxvkStagingBuffer) (s : State) : State :=
  Build_State (m_adapter s) (m_features s) (m_graphicsQueue s) (m_presentQueue s)
    (m_memory s) (m_pipelineManager s)
    (m_recycledCommandLists s) (m_recycledDescriptorPools s) (m_recycledStagingBuffers s)
    (m_statCounters s) (m_submissionQueue s)
    (buffers s) h (commandLists s) (descriptorPools s)
    (trace s).

Definition set_commandLists (h : gmap loc DxvkCommandList) (s : State) : State :=
  Build_State (m_adapter s) (m_features s) (m_graphicsQueue s) (m_presentQueue s)
    (m_memory s) (m_pipelineManager s)
    (m_recycledCommandLists s) (m_recycledDescriptorPools s) (m_recycledStagingBuffers s)
    (m_statCounters s) (m_submissionQueue s)
    (buffers s) (stagingBuffers s) h (descriptorPools s)
    (trace s).

Definition set_descriptorPools (h : gmap loc DxvkDescriptorPool) (s : State) : State :=
  Build_State (m_adapter s) (m_features s) (m_graphicsQueue s) (m_presentQueue s)
    (m_memory s) (m_pipelineManager s)
    (m_recycledCommandLists s) (m_recycledDescriptorPools s) (m_recycledStagingBuffers s)
    (m_statCounters s) (m_submissionQueue s)
    (buffers s) (stagingBuffers s) (commandLists s) h
    (trace s).

(** ** The monad of device methods

    A method maps the state before the call to its return value and the
    state after it, or to [None] when it dereferences an address at which
    no object lives (undefined behaviour in the source). *)

Definition M (A : Type) : Type := State -> option (A * State).

Definition ret {A : Type} (a : A) : M A := fun s => Some (a, s).

Definition bind {A B : Type} (m : M A) (k : A -> M B) : M B :=
  fun s => match m s with
           | Some (a, s') => k a s'
           | None => None
           end.

Declare Scope dev_scope.
Delimit Scope dev_scope with dev.
Notation "x <- m ;; k" := (bind m (fun x => k))
  (at level 100, m at next level, right associativity) : dev_scope.
Notation "m ;; k" := (bind m (fun _ => k))
  (at level 100, right associativity) : dev_scope.
Local Open Scope dev_scope.

Definition gets {A : Type} (f : State -> A) : M A := fun s => Some (f s, s).

Definition modify (f : State -> State) : M unit := fun s => Some (tt, f s).

Definition emit (e : Event) : M unit := modify (push_event e).

Definition deref {A : Type} (heap : State -> gmap loc A) (l : loc) : M A :=
  fun s => match heap s !! l with
           | Some obj => Some (obj, s)
           | None => None
           end.

(** The result of a run: the final state, if the run is defined. *)
Definition exec {A : Type} (m : M A) (s : State) : option State :=
  match m s with
  | Some (_, s') => Some s'
  | None => None
  end.

(** The actions recorded between [s] and [s'], oldest first. *)
Definition emitted (s s' : State) (evs : list Event) : Prop :=
  trace s' = rev evs ++ trace s.

(** ** What the device code takes from outside

    [DefaultStagingBufferSize] is a constant of the class declaration,
    which is not among the sources.  [driver] stands for the code behind
    [DxvkCommandList::submit] and [vk::Presenter::presentImage]: given
    everything that happened so far, it decides the [VkResult] of the
    next call. *)
Class Environment : Type := {
  DefaultStagingBufferSize : VkDeviceSize;
  driver : list Event -> ExternalCall -> VkResult
}.

Section Methods.
Context `{env : Environment}.

(** *** Primitive actions *)

(** [std::lock_guard] construction and destruction. *)
Definition lock (l : Lock) : M unit := emit (EvAcquire l).
Definition unlock (l : Lock) : M unit := emit (EvRelease l).

(** A call into the driver. *)
Definition external (c : ExternalCall) : M VkResult :=
  fun s => let r := driver (trace s) c in
           Some (r, push_event (EvExternal c r) s).

(** Modelled from the spec: [DxvkRecycler::retrieveObject] removes and
    returns one idle instance if there is one and signals emptiness by
    a null reference otherwise. *)
Definition retrieveObject (p : Pool) : M (option loc) :=
  fun s => match recycled p s with
           | [] => Some (None, push_event (EvRetrieve p None) s)
           | obj :: idle =>
               Some (Some obj, push_event (EvRetrieve p (Some obj)) (set_recycled p idle s))
           end.

(** Modelled from the spec: [DxvkRecycler::returnObject] inserts the
    object into the idle set, making it available to the next
    [retrieveObject].  The contract fixes neither the order in which idle
    objects come out nor a capacity; the list hands out the most recently
    returned object first, and the properties recorded for the device do
    not depend on that choice. *)
Definition returnObject (p : Pool) (obj : loc) : M unit :=
  fun s => Some (tt, push_event (EvReturn p obj) (set_recycled p (obj :: recycled p s) s)).

(** [buffer->size()] *)
Definition stagingBuffer_size (buffer : loc) : M VkDeviceSize :=
  b <- deref stagingBuffers buffer ;; ret (m_bufferSize b).

(** [buffer->reset()]: acts on the object the reference points to. *)
Definition stagingBuffer_reset (buffer : loc) : M unit :=
  b <- deref stagingBuffers buffer ;;
  modify (fun s => set_stagingBuffers (<[buffer := staging_reset_state b]> (stagingBuffers s)) s) ;;
  emit (EvReset buffer).

(** [new DxvkBuffer(this, createInfo, *m_memory, memoryType)] *)
Definition new_DxvkBuffer (createInfo : DxvkBufferCreateInfo) (memoryType : VkFlags) : M loc :=
  fun s => let l := fresh (dom (buffers s)) in
           Some (l, push_event (EvNew KBuffer l)
                      (set_buffers (<[l := {| buf_info := createInfo;
                                              buf_memFlags := memoryType |}]> (buffers s)) s)).

(** [new DxvkStagingBuffer(buffer)]: the size is that of the buffer. *)
Definition new_DxvkStagingBuffer (buffer : loc) : M loc :=
  b <- deref buffers buffer ;;
  fun s => let l := fresh (dom (stagingBuffers s)) in
           Some (l, push_event (EvNew KStagingBuffer l)
                      (set_stagingBuffers
                         (<[l := {| m_buffer := buffer;
                                    m_bufferSize := info_size (buf_info b);
                                    m_bufferOffset := 0 |}]> (stagingBuffers s)) s)).

(** [new DxvkCommandList(this, queueFamily)] *)
Definition new_DxvkCommandList (family : N) : M loc :=
  fun s => let l := fresh (dom (commandLists s)) in
           Some (l, push_event (EvNew KCommandList l)
                      (set_commandLists
                         (<[l := {| cl_queueFamily := family;
                                    cl_recorded := 0;
                                    cl_statCounters := zeroCounters |}]> (commandLists s)) s)).

(** [new DxvkDescriptorPool(m_vkd)] *)
Definition new_DxvkDescriptorPool : M loc :=
  fun s => let l := fresh (dom (descriptorPools s)) in
           Some (l, push_event (EvNew KDescriptorPool l)
                      (set_descriptorPools
                         (<[l := {| dp_allocated := 0 |}]> (descriptorPools s)) s)).

(** [m_statCounters.merge(commandList->statCounters())] *)
Definition statCounters_merge (commandList : loc) : M unit :=
  cl <- deref commandLists commandList ;;
  modify (fun s => set_statCounters (merge (m_statCounters s) (cl_statCounters cl)) s) ;;
  emit (EvStatMerge commandList).

(** [m_statCounters.addCtr(ctr, val)] *)
Definition statCounters_addCtr (ctr : DxvkStatCounter) (val : N) : M unit :=
  modify (fun s => set_statCounters (addCtr (m_statCounters s) ctr val) s) ;;
  emit (EvStatAdd ctr val).

(** [m_submissionQueue.submit(commandList)]: the list joins the set of
    running submissions that the completion tracker watches. *)
Definition submissionQueue_submit (commandList : loc) : M unit :=
  modify (fun s => set_submissionQueue (m_submissionQueue s ++ [commandList]) s) ;;
  emit (EvTrack commandList).

(** [Logger::err(str::format(msg, status))] *)
Definition Logger_err (msg : string) (status : VkResult) : M unit :=
  emit (EvLogErr msg status).

(** *** The methods of [DxvkDevice] *)

Definition getShaderPipelineStages (s : State) : VkFlags :=
  let result := N.lor (N.lor VK_PIPELINE_STAGE_COMPUTE_SHADER_BIT
                             VK_PIPELINE_STAGE_VERTEX_SHADER_BIT)
                      VK_PIPELINE_STAGE_FRAGMENT_SHADER_BIT in
  let result :=
    if negb (geometryShader (m_features s) =? 0)
    then N.lor result VK_PIPELINE_STAGE_GEOMETRY_SHADER_BIT
    else result in
  let result :=
    if negb (tessellationShader (m_features s) =? 0)
    then N.lor result (N.lor VK_PIPELINE_STAGE_TESSELLATION_CONTROL_SHADER_BIT
                             VK_PIPELINE_STAGE_TESSELLATION_EVALUATION_SHADER_BIT)
    else result in
  result.

Definition createBuffer (createInfo : DxvkBufferCreateInfo) (memoryType : VkFlags) : M loc :=
  new_DxvkBuffer createInfo memoryType.

(** The part of [allocStagingBuffer] after the attempt to recycle. *)
Definition allocStagingBuffer_fresh (size : VkDeviceSize) : M loc :=
  let info_size0 := size in
  let memFlags := N.lor VK_MEMORY_PROPERTY_HOST_VISIBLE_BIT
                        VK_MEMORY_PROPERTY_HOST_COHERENT_BIT in
  let info_size1 :=
    if info_size0 <? DefaultStagingBufferSize then DefaultStagingBufferSize else info_size0 in
  let info := {| info_size := info_size1;
                 info_usage := VK_BUFFER_USAGE_TRANSFER_SRC_BIT;
                 info_stages := N.lor VK_PIPELINE_STAGE_TRANSFER_BIT VK_PIPELINE_STAGE_HOST_BIT;
                 info_access := N.lor VK_ACCESS_TRANSFER_READ_BIT VK_ACCESS_HOST_WRITE_BIT |} in
  buffer <- createBuffer info memFlags ;;
  new_DxvkStagingBuffer buffer.

Definition allocStagingBuffer (size : VkDeviceSize) : M loc :=
  if size <=? DefaultStagingBufferSize then
    buffer <- retrieveObject StagingBuffers ;;
    match buffer with
    | Some b => ret b
    | None => allocStagingBuffer_fresh size
    end
  else allocStagingBuffer_fresh size.

Definition recycleStagingBuffer (buffer : loc) : M unit :=
  size <- stagingBuffer_size buffer ;;
  if size =? DefaultStagingBufferSize then
    returnObject StagingBuffers buffer ;;
    stagingBuffer_reset buffer
  else ret tt.

Definition createCommandList : M loc :=
  cmdList <- retrieveObject CommandLists ;;
  match cmdList with
  | None =>
      family <- gets (fun s => graphicsQueueFamily (m_adapter s)) ;;
      new_DxvkCommandList family
  | Some l => ret l
  end.

Definition createDescriptorPool : M loc :=
  pool <- retrieveObject DescriptorPools ;;
  match pool with
  | None => new_DxvkDescriptorPool
  | Some l => ret l
  end.

Definition getStatCounters : M DxvkStatCounters :=
  mem <- gets m_memory ;;
  pipe <- gets m_pipelineManager ;;
  let result := zeroCounters in
  let result := setCtr result MemoryAllocated (memoryAllocated mem) in
  let result := setCtr result MemoryUsed (memoryUsed mem) in
  let result := setCtr result PipeCountGraphics (numGraphicsPipelines pipe) in
  let result := setCtr result PipeCountCompute (numComputePipelines pipe) in
  lock StatLock ;;
  current <- gets m_statCounters ;;
  emit EvStatRead ;;
  let result := merge result current in
  unlock StatLock ;;
  ret result.

(** The 64-bit counter is returned as a [uint32_t]. *)
Definition getCurrentFrameId (s : State) : N :=
  wrap32 (getCtr (m_statCounters s) QueuePresentCount).

Definition presentImage (presenter : loc) (semaphore : VkSemaphore) : M VkResult :=
  lock SubmissionLock ;;
  status <- external (CallPresent presenter semaphore) ;;
  if negb (status =? VK_SUCCESS)%Z then
    unlock SubmissionLock ;;
    ret status
  else
    lock StatLock ;;
    statCounters_addCtr QueuePresentCount 1 ;;
    unlock StatLock ;;
    unlock SubmissionLock ;;
    ret status.

Definition submitCommandList (commandList : loc) (waitSync wakeSync : VkSemaphore) : M unit :=
  lock SubmissionLock ;;
  lock StatLock ;;
  statCounters_merge commandList ;;
  statCounters_addCtr QueueSubmitCount 1 ;;
  queue <- gets (fun s => queueHandle (m_graphicsQueue s)) ;;
  status <- external (CallSubmit commandList queue waitSync wakeSync) ;;
  unlock StatLock ;;
  unlock SubmissionLock ;;
  if (status =? VK_SUCCESS)%Z then
    submissionQueue_submit commandList
  else
    Logger_err "DxvkDevice: Command buffer submission failed: " status.

Definition recycleCommandList (cmdList : loc) : M unit :=
  returnObject CommandLists cmdList.

Definition recycleDescriptorPool (pool : loc) : M unit :=
  returnObject DescriptorPools pool.

End Methods.

(** ** Whole executions *)

(** The state the constructor leaves behind: empty recyclers, counters
    at zero, nothing submitted, no object created yet. *)
Definition DxvkDevice_new (adapter : DxvkAdapter) (features : DxvkDeviceFeatures)
    (graphicsHandle presentHandle : VkQueue) : State :=
  {| m_adapter := adapter;
     m_features := features;
     m_graphicsQueue := {| queueFamily := graphicsQueueFamily adapter;
                           queueHandle := graphicsHandle |};
     m_presentQueue := {| queueFamily := presentQueueFamily adapter;
                          queueHandle := presentHandle |};
     m_memory := {| memoryAllocated := 0; memoryUsed := 0 |};
     m_pipelineManager := {| numGraphicsPipelines := 0; numComputePipelines := 0 |};
     m_recycledCommandLists := [];
     m_recycledDescriptorPools := [];
     m_recycledStagingBuffers := [];
     m_statCounters := zeroCounters;
     m_submissionQueue := [];
     buffers := ∅;
     stagingBuffers := ∅;
     commandLists := ∅;
     descriptorPools := ∅;
     trace := [] |}.

(** Modelled from the spec: what the owner of an object does with it
    between obtaining it from the device and giving it back.  The
    recording API adds commands and statistics to a command list, a
    transfer consumes space of a staging buffer, a rendering pass carves
    descriptor sets from a pool. *)
Definition client_record (commandList : loc) (commands : N) (stats : DxvkStatCounters)
  : M unit :=
  cl <- deref commandLists commandList ;;
  modify (fun s => set_commandLists
            (<[commandList := {| cl_queueFamily := cl_queueFamily cl;
                                 cl_recorded := cl_recorded cl + commands;
                                 cl_statCounters := merge (cl_statCounters cl) stats |}]>
               (commandLists s)) s).

Definition client_stagingWrite (buffer : loc) (bytes : VkDeviceSize) : M unit :=
  b <- deref stagingBuffers buffer ;;
  modify (fun s => set_stagingBuffers
            (<[buffer := {| m_buffer := m_buffer b;
                            m_bufferSize := m_bufferSize b;
                            m_bufferOffset :=
                              if m_bufferOffset b + bytes <=? m_bufferSize b
                              then m_bufferOffset b + bytes
                              else m_bufferOffset b |}]>
               (stagingBuffers s)) s).

Definition client_allocateSets (pool : loc) (sets : N) : M unit :=
  p <- deref descriptorPools pool ;;
  modify (fun s => set_descriptorPools
            (<[pool := {| dp_allocated := dp_allocated p + sets |}]> (descriptorPools s)) s).

(** One call made by a client of the device. *)
Inductive Op : Type :=
  | OpCreateBuffer (createInfo : DxvkBufferCreateInfo) (memoryType : VkFlags)
  | OpAllocStagingBuffer (size : VkDeviceSize)
  | OpRecycleStagingBuffer (buffer : loc)
  | OpCreateCommandList
  | OpCreateDescriptorPool
  | OpGetStatCounters
  | OpPresentImage (presenter : loc) (semaphore : VkSemaphore)
  | OpSubmitCommandList (commandList : loc) (waitSync wakeSync : VkSemaphore)
  | OpRecycleCommandList (cmdList : loc)
  | OpRecycleDescriptorPool (pool : loc)
  | OpRecord (commandList : loc) (commands : N) (stats : DxvkStatCounters)
  | OpStagingWrite (buffer : loc) (bytes : VkDeviceSize)
  | OpAllocateSets (pool : loc) (sets : N).

Definition step `{env : Environment} (o : Op) : State -> option State :=
  match o with
  | OpCreateBuffer createInfo memoryType => exec (createBuffer createInfo memoryType)
  | OpAllocStagingBuffer size => exec (allocStagingBuffer size)
  | OpRecycleStagingBuffer buffer => exec (recycleStagingBuffer buffer)
  | OpCreateCommandList => exec createCommandList
  | OpCreateDescriptorPool => exec createDescriptorPool
  | OpGetStatCounters => exec getStatCounters
  | OpPresentImage presenter semaphore => exec (presentImage presenter semaphore)
  | OpSubmitCommandList cl waitSync wakeSync => exec (submitCommandList cl waitSync wakeSync)
  | OpRecycleCommandList cl => exec (recycleCommandList cl)
  | OpRecycleDescriptorPool pool => exec (recycleDescriptorPool pool)
  | OpRecord cl commands stats => exec (client_record cl commands stats)
  | OpStagingWrite buffer bytes => exec (client_stagingWrite buffer bytes)
  | OpAllocateSets pool sets => exec (client_allocateSets pool sets)
  end.

Fixpoint run `{env : Environment} (ops : list Op) (s : State) : option State :=
  match ops with
  | [] => Some s
  | o :: rest =>
      match step o s with
      | Some s' => run rest s'
      | None => None
      end
  end.

(** ** Notions the properties are stated with *)

(** The locks held after an action, most recently taken first. *)
Definition held_step (held : list Lock) (e : Event) : list Lock :=
  match e with
  | EvAcquire l => l :: held
  | EvRelease l => filter (fun l' => l' <> l) held
  | _ => held
  end.

Definition held_after (held : list Lock) (evs : list Event) : list Lock :=
  fold_left held_step evs held.

(** Both locks are held only in the order: queue lock taken first, then
    the counter lock; and no lock is held twice. *)
Definition order_ok (held : list Lock) : bool :=
  bool_decide (held = [] \/ held = [SubmissionLock] \/ held = [StatLock]
               \/ held = [StatLock; SubmissionLock]).

(** [order_ok] at every point of a sequence of actions. *)
Fixpoint lock_order (held : list Lock) (evs : list Event) : bool :=
  order_ok held &&
  match evs with
  | [] => true
  | e :: rest => lock_order (held_step held e) rest
  end.

Definition is_successful_present (e : Event) : bool :=
  match e with
  | EvExternal (CallPresent _ _) r => (r =? VK_SUCCESS)%Z
  | _ => false
  end.

Definition is_submit_call (e : Event) : bool :=
  match e with
  | EvExternal (CallSubmit _ _ _ _) _ => true
  | _ => false
  end.

(** How many of the recorded actions satisfy [f]. *)
Definition count_events (f : Event -> bool) (evs : list Event) : N :=
  N.of_nat (length (filter (fun e => f e = true) evs)).

(** The number of present operations that succeeded so far. *)
Definition successful_presents (s : State) : N :=
  count_events is_successful_present (trace s).

(** A staging buffer is in its empty, writable state. *)
Definition staging_is_reset (s : State) (buffer : loc) : Prop :=
  exists b, stagingBuffers s !! buffer = Some b /\ m_bufferOffset b = 0.

(** The size of the staging buffer behind a reference. *)
Definition staging_size_is (s : State) (buffer : loc) (size : VkDeviceSize) : Prop :=
  exists b, stagingBuffers s !! buffer = Some b /\ m_bufferSize b = size.

(** Every idle staging buffer has the standard size. *)
Definition staging_pool_standard `{env : Environment} (s : State) : Prop :=
  Forall (fun l => staging_size_is s l DefaultStagingBufferSize) (m_recycledStagingBuffers s).

(** The six shader stage bits. *)
Definition all_shader_stages : VkFlags :=
  N.lor VK_PIPELINE_STAGE_COMPUTE_SHADER_BIT
    (N.lor VK_PIPELINE_STAGE_VERTEX_SHADER_BIT
       (N.lor VK_PIPELINE_STAGE_FRAGMENT_SHADER_BIT
          (N.lor VK_PIPELINE_STAGE_GEOMETRY_SHADER_BIT
             (N.lor VK_PIPELINE_STAGE_TESSELLATION_CONTROL_SHADER_BIT
                VK_PIPELINE_STAGE_TESSELLATION_EVALUATION_SHADER_BIT)))).

(** The driver's answer to the present call that [presentImage] makes
    from state [s]: it is asked once the queue lock is taken. *)
Definition present_status `{env : Environment} (s : State) (presenter : loc)
    (semaphore : VkSemaphore) : VkResult :=
  driver (EvAcquire SubmissionLock :: trace s) (CallPresent presenter semaphore).

(** The driver's answer to the submission that [submitCommandList] makes
    from state [s]: it is asked once both locks are taken and the
    statistics are merged. *)
Definition submit_status `{env : Environment} (s : State) (commandList : loc)
    (waitSync wakeSync : VkSemaphore) : VkResult :=
  driver (EvStatAdd QueueSubmitCount 1 :: EvStatMerge commandList
            :: EvAcquire StatLock :: EvAcquire SubmissionLock :: trace s)
         (CallSubmit commandList (queueHandle (m_graphicsQueue s)) waitSync wakeSync).

(** The result of the most recent submission to the hardware queue. *)
Fixpoint last_submit_status (evs : list Event) : option VkResult :=
  match evs with
  | [] => None
  | EvExternal (CallSubmit _ _ _ _) r :: _ => Some r
  | _ :: rest => last_submit_status rest
  end.

(** Along a session that starts in [s], every command list that is
    submitted carries, at the time it is submitted, no present count of
    its own. *)
Fixpoint submits_carry_no_presents `{env : Environment} (ops : list Op) (s : State)
  : Prop :=
  match ops with
  | [] => True
  | o :: rest =>
      match o with
      | OpSubmitCommandList commandList _ _ =>
          forall cl, commandLists s !! commandList = Some cl ->
                     getCtr (cl_statCounters cl) QueuePresentCount = 0
      | _ => True
      end /\
      match step o s with
      | Some s' => submits_carry_no_presents rest s'
      | None => True
      end
  end.

(** The present counter equals the number of successful presents. *)
Definition presents_tallied (s : State) : Prop :=
  getCtr (m_statCounters s) QueuePresentCount = wrap64 (successful_presents s).

(** ** Sample devices and environments *)

Definition sample_adapter : DxvkAdapter :=
  {| graphicsQueueFamily := 0; presentQueueFamily := 0 |}.

Definition sample_features : DxvkDeviceFeatures :=
  {| geometryShader := 1; tessellationShader := 0 |}.

Definition sample_device : State :=
  DxvkDevice_new sample_adapter sample_features 1 2.

(** A driver that accepts every call, and one that has lost the device. *)
Definition driver_accepts : list Event -> ExternalCall -> VkResult :=
  fun _ _ => VK_SUCCESS.

Definition driver_lost : list Event -> ExternalCall -> VkResult :=
  fun _ _ => VK_ERROR_DEVICE_LOST.

Definition env_accepts : Environment :=
  {| DefaultStagingBufferSize := 65536; driver := driver_accepts |}.

Definition env_lost : Environment :=
  {| DefaultStagingBufferSize := 65536; driver := driver_lost |}.

(** A driver that rejects a null semaphore and accepts everything else. *)
Definition driver_strict : list Event -> ExternalCall -> VkResult :=
  fun _ c =>
    match c with
    | CallSubmit _ _ 0 _ => VK_ERROR_DEVICE_LOST
    | CallPresent _ 0 => VK_ERROR_OUT_OF_DATE_KHR
    | _ => VK_SUCCESS
    end.

Definition env_strict : Environment :=
  {| DefaultStagingBufferSize := 65536; driver := driver_strict |}.

(** Statistics of a recording with three draw calls. *)
Definition sample_stats : DxvkStatCounters :=
  setCtr zeroCounters (OtherCounter 0) 3.

(** A device on which one command list has been created and recorded. *)
Definition sample_recorded : State :=
  default sample_device
    (@run env_accepts [OpCreateCommandList; OpRecord 1 3 sample_stats] sample_device).

(** A device on which a staging buffer has been obtained and partly
    written, and the same device after the buffer was given back. *)
Definition sample_staging_used : State :=
  default sample_device
    (@run env_accepts [OpAllocStagingBuffer 64; OpStagingWrite 1 100] sample_device).

Definition sample_staging_recycled : State :=
  default sample_device
    (@run env_accepts [OpAllocStagingBuffer 64; OpStagingWrite 1 100;
                       OpRecycleStagingBuffer 1] sample_device).

(** A device whose recorded command list has been given back. *)
Definition sample_list_recycled : State :=
  default sample_device
    (@run env_accepts [OpCreateCommandList; OpRecord 1 3 sample_stats;
                       OpRecycleCommandList 1] sample_device).

(** A short session: a list is created, recorded and submitted, one
    present is refused and two are accepted, the counters are read. *)
Definition sample_session : list Op :=
  [OpCreateCommandList; OpRecord 1 3 sample_stats; OpSubmitCommandList 1 5 6;
   OpPresentImage 1 0; OpPresentImage 1 7; OpPresentImage 1 8; OpGetStatCounters].

Definition sample_after_session : State :=
  default sample_device (@run env_strict sample_session sample_device).

(** One successful present on a device whose driver accepts every call. *)
Definition present_once (s : State) : State :=
  default s (@step env_accepts (OpPresentImage 1 1) s).


(** ** Notions for the properties of whole sessions *)

(** The command lists handed to the submission queue, newest first. *)
Definition tracked_lists (evs : list Event) : list loc :=
  omap (fun e => match e with
                 | EvTrack commandList => Some commandList
                 | _ => None
                 end) evs.

(** The command lists whose submission the hardware queue accepted,
    newest first. *)
Definition accepted_submissions (evs : list Event) : list loc :=
  omap (fun e => match e with
                 | EvExternal (CallSubmit commandList _ _ _) r =>
                     if (r =? VK_SUCCESS)%Z then Some commandList else None
                 | _ => None
                 end) evs.

(** The statuses written to the error log, newest first. *)
Definition logged_statuses (evs : list Event) : list VkResult :=
  omap (fun e => match e with
                 | EvLogErr _ status => Some status
                 | _ => None
                 end) evs.

(** The statuses of the submissions the hardware queue refused, newest
    first. *)
Definition refused_submissions (evs : list Event) : list VkResult :=
  omap (fun e => match e with
                 | EvExternal (CallSubmit _ _ _ _) r =>
                     if (r =? VK_SUCCESS)%Z then None else Some r
                 | _ => None
                 end) evs.

(** What became of the submissions so far: the submission queue holds
    the accepted lists in the order of their submission, every accepted
    list was tracked, and every refused status was logged. *)
Definition submissions_accounted (s : State) : Prop :=
  m_submissionQueue s = rev (accepted_submissions (trace s)) /\
  tracked_lists (trace s) = accepted_submissions (trace s) /\
  logged_statuses (trace s) = refused_submissions (trace s).

(** The number of submissions made to the hardware queue so far,
    accepted or not. *)
Definition submissions (s : State) : N :=
  count_events is_submit_call (trace s).

(** A recording that leaves the submission counter of its command list
    alone. *)
Definition records_no_submits (o : Op) : Prop :=
  match o with
  | OpRecord _ _ stats => getCtr stats QueueSubmitCount = 0
  | _ => True
  end.

(** The submission counter equals the number of submissions, and no
    command list carries a submission count of its own. *)
Definition submits_counted (s : State) : Prop :=
  getCtr (m_statCounters s) QueueSubmitCount = wrap64 (submissions s) /\
  forall l cl, commandLists s !! l = Some cl -> getCtr (cl_statCounters cl) QueueSubmitCount = 0.

(** Every running counter fits in 64 bits. *)
Definition counters_bounded (s : State) : Prop :=
  forall k, getCtr (m_statCounters s) k < 2 ^ 64.

(** The counters [getStatCounters] takes from the memory allocator and
    the pipeline manager instead of the running totals alone. *)
Definition is_live_counter (k : DxvkStatCounter) : bool :=
  match k with
  | MemoryAllocated | MemoryUsed | PipeCountGraphics | PipeCountCompute => true
  | _ => false
  end.

Definition is_lock_event (e : Event) : bool :=
  match e with
  | EvAcquire _ | EvRelease _ => true
  | _ => false
  end.

(** The calls that create, hand out or take back objects. *)
Definition is_pooling_call (o : Op) : bool :=
  match o with
  | OpCreateBuffer _ _ | OpAllocStagingBuffer _ | OpRecycleStagingBuffer _
  | OpCreateCommandList | OpCreateDescriptorPool
  | OpRecycleCommandList _ | OpRecycleDescriptorPool _ => true
  | _ => false
  end.

(** The buffer description [allocStagingBuffer] passes to [createBuffer]
    for a request of [size] bytes. *)
Definition staging_buffer_info `{env : Environment} (size : VkDeviceSize)
  : DxvkBufferCreateInfo :=
  {| info_size := N.max size DefaultStagingBufferSize;
     info_usage := VK_BUFFER_USAGE_TRANSFER_SRC_BIT;
     info_stages := N.lor VK_PIPELINE_STAGE_TRANSFER_BIT VK_PIPELINE_STAGE_HOST_BIT;
     info_access := N.lor VK_ACCESS_TRANSFER_READ_BIT VK_ACCESS_HOST_WRITE_BIT |}.

(** A session with one accepted submission, one refused submission and
    one refused present. *)
Definition sample_submissions : list Op :=
  [OpCreateCommandList; OpRecord 1 3 sample_stats;
   OpSubmitCommandList 1 5 6; OpSubmitCommandList 1 0 6; OpPresentImage 1 0].

Definition sample_after_submissions : State :=
  default sample_device (@run env_strict sample_submissions sample_device).

(** The sample device after its first staging buffer request. *)
Definition sample_staging_fresh : State :=
  default sample_device (@run env_accepts [OpAllocStagingBuffer 64] sample_device).

(** A session with two command lists: the second takes up a present
    count of its own but is never submitted; the first is recorded and
    submitted; one present is refused and two are accepted. *)
Definition sample_frames : list Op :=
  [OpCreateCommandList; OpCreateCommandList;
   OpRecord 2 1 (setCtr zeroCounters QueuePresentCount 5);
   OpRecord 1 3 sample_stats; OpSubmitCommandList 1 5 6;
   OpPresentImage 1 0; OpPresentImage 1 7; OpPresentImage 1 8].

Definition sample_after_frames : State :=
  default sample_device (@run env_strict sample_frames sample_device).

(** Modelled from the spec: the memory allocator and the pipeline
    manager keep statistics of their own, which move as memory is
    allocated and pipelines are compiled; the device only reads them. *)
Definition with_live_statistics (mem : DxvkMemoryStats) (pipe : DxvkPipelineCount)
    (s : State) : State :=
  Build_State (m_adapter s) (m_features s) (m_graphicsQueue s) (m_presentQueue s)
    mem pipe
    (m_recycledCommandLists s) (m_recycledDescriptorPools s) (m_recycledStagingBuffers s)
    (m_statCounters s) (m_submissionQueue s)
    (buffers s) (stagingBuffers s) (commandLists s) (descriptorPools s)
    (trace s).

(** The sample session on a device whose allocator and pipeline manager
    report memory and pipelines in use. *)
Definition sample_in_use : State :=
  with_live_statistics {| memoryAllocated := 4096; memoryUsed := 1024 |}
                       {| numGraphicsPipelines := 3; numComputePipelines := 1 |}
                       sample_after_session.

(** * Properties *)

(** ** Proof automation and basic facts *)

Ltac unfold_prims :=
  unfold lock, unlock, external, statCounters_addCtr, statCounters_merge,
    submissionQueue_submit, Logger_err, retrieveObject, returnObject,
    stagingBuffer_size, stagingBuffer_reset, new_DxvkBuffer, new_DxvkStagingBuffer,
    new_DxvkCommandList, new_DxvkDescriptorPool, createBuffer,
    emit, modify, gets, deref, bind, ret in *.

(** The actions of [l] that are newer than those of [tl]. *)
Ltac newer_than l tl :=
  lazymatch l with
  | tl => constr:(@nil Event)
  | ?e :: ?r => let p := newer_than r tl in constr:(e :: p)
  end.

(** Case analysis on every test a method makes in hypothesis [H]. *)
Ltac method_cases H :=
  repeat (cbn in H;
          match type of H with
          | context [match ?x with _ => _ end] =>
              lazymatch x with
              | context [match _ with _ => _ end] => fail
              | _ => destruct x eqn:?; try discriminate H
              end
          end).

Ltac unfold_methods H :=
  unfold step, exec, allocStagingBuffer, allocStagingBuffer_fresh, recycleStagingBuffer,
    createCommandList, createDescriptorPool, getStatCounters, presentImage,
    submitCommandList, recycleCommandList, recycleDescriptorPool,
    client_record, client_stagingWrite, client_allocateSets in H;
  unfold_prims.

Lemma getCtr_addCtr_same (c : DxvkStatCounters) (ctr : DxvkStatCounter) (val : N) :
  getCtr (addCtr c ctr val) ctr = wrap64 (getCtr c ctr + val).
Proof. unfold getCtr, addCtr. rewrite decide_True; reflexivity. Qed.

Lemma getCtr_addCtr_other (c : DxvkStatCounters) (ctr k : DxvkStatCounter) (val : N) :
  k <> ctr -> getCtr (addCtr c ctr val) k = getCtr c k.
Proof. intros Hk. unfold getCtr, addCtr. rewrite decide_False; [reflexivity | exact Hk]. Qed.

Lemma getCtr_merge (c other : DxvkStatCounters) (k : DxvkStatCounter) :
  getCtr (merge c other) k = wrap64 (getCtr c k + getCtr other k).
Proof. reflexivity. Qed.

Lemma wrap64_small (n : N) : n < 2 ^ 64 -> wrap64 n = n.
Proof. intros Hn. unfold wrap64. apply N.mod_small. exact Hn. Qed.

Lemma wrap64_add_l (a b : N) : wrap64 (wrap64 a + b) = wrap64 (a + b).
Proof. unfold wrap64. rewrite N.Div0.add_mod_idemp_l. reflexivity. Qed.

Lemma wrap32_wrap64 (n : N) : wrap32 (wrap64 n) = wrap32 n.
Proof.
  unfold wrap32, wrap64.
  replace (2 ^ 64) with (2 ^ 32 * 2 ^ 32) by reflexivity.
  rewrite N.Div0.mod_mul_r.
  rewrite (N.mul_comm (2 ^ 32) (_ mod _)).
  rewrite N.Div0.mod_add.
  apply N.Div0.mod_mod.
Qed.

Lemma lock_order_app (held : list Lock) (evs1 evs2 : list Event) :
  lock_order held (evs1 ++ evs2)
  = lock_order held evs1 && lock_order (held_after held evs1) evs2.
Proof.
  revert held. induction evs1 as [| e evs1 IH]; intros held.
  - cbn. destruct evs2; cbn; destruct (order_ok held); reflexivity.
  - cbn. rewrite IH. destruct (order_ok held); reflexivity.
Qed.

Lemma held_after_app (held : list Lock) (evs1 evs2 : list Event) :
  held_after held (evs1 ++ evs2) = held_after (held_after held evs1) evs2.
Proof. unfold held_after. apply fold_left_app. Qed.

Lemma emitted_trans (s1 s2 s3 : State) (evs1 evs2 : list Event) :
  emitted s1 s2 evs1 -> emitted s2 s3 evs2 -> emitted s1 s3 (evs1 ++ evs2).
Proof.
  unfold emitted. intros H1 H2. rewrite H2, H1, rev_app_distr, app_assoc. reflexivity.
Qed.

Lemma size_kept_by_update (h : gmap positive DxvkStagingBuffer) (buffer l : positive)
    (b b' : DxvkStagingBuffer) (size : N) :
  h !! buffer = Some b ->
  m_bufferSize b' = m_bufferSize b ->
  (exists x, h !! l = Some x /\ m_bufferSize x = size) ->
  exists x, <[buffer := b']> h !! l = Some x /\ m_bufferSize x = size.
Proof.
  intros Hb Hsize (x & Hx & Hxs).
  destruct (decide (buffer = l)) as [-> | Hne].
  - exists b'. rewrite lookup_insert_eq. split; [reflexivity |]. congruence.
  - exists x. rewrite lookup_insert_ne by exact Hne. split; assumption.
Qed.

Lemma size_kept_by_fresh (h : gmap positive DxvkStagingBuffer) (l : positive)
    (b' : DxvkStagingBuffer) (size : N) :
  (exists x, h !! l = Some x /\ m_bufferSize x = size) ->
  exists x, <[fresh (dom h) := b']> h !! l = Some x /\ m_bufferSize x = size.
Proof.
  intros (x & Hx & Hxs). exists x. split; [| exact Hxs].
  rewrite lookup_insert_ne; [exact Hx |].
  intros Heq. apply (is_fresh (dom h)). rewrite Heq.
  apply elem_of_dom. exists x. exact Hx.
Qed.

Lemma count_events_cons (f : Event -> bool) (e : Event) (evs : list Event) :
  count_events f (e :: evs) = (if f e then 1 else 0) + count_events f evs.
Proof.
  unfold count_events. rewrite filter_cons. destruct (f e).
  - rewrite decide_True by reflexivity. cbn [length]. rewrite Nat2N.inj_succ. lia.
  - rewrite decide_False by discriminate. reflexivity.
Qed.

Lemma wrap64_idem (n : N) : wrap64 (wrap64 n) = wrap64 n.
Proof. unfold wrap64. apply N.Div0.mod_mod. Qed.

(** ** Shader pipeline stages *)

(** C10: in every device state the stage mask contains the compute,
    vertex and fragment bits; it contains the geometry bit exactly when
    the [geometryShader] feature is enabled, and each of the two
    tessellation bits exactly when [tessellationShader] is enabled; apart
    from these six bits nothing is set. *)
Theorem getShaderPipelineStages_bits (s : State) :
  has_flags (getShaderPipelineStages s) VK_PIPELINE_STAGE_COMPUTE_SHADER_BIT /\
  has_flags (getShaderPipelineStages s) VK_PIPELINE_STAGE_VERTEX_SHADER_BIT /\
  has_flags (getShaderPipelineStages s) VK_PIPELINE_STAGE_FRAGMENT_SHADER_BIT /\
  (has_flags (getShaderPipelineStages s) VK_PIPELINE_STAGE_GEOMETRY_SHADER_BIT
     <-> geometryShader (m_features s) <> 0) /\
  (has_flags (getShaderPipelineStages s) VK_PIPELINE_STAGE_TESSELLATION_CONTROL_SHADER_BIT
     <-> tessellationShader (m_features s) <> 0) /\
  (has_flags (getShaderPipelineStages s) VK_PIPELINE_STAGE_TESSELLATION_EVALUATION_SHADER_BIT
     <-> tessellationShader (m_features s) <> 0) /\
  N.ldiff (getShaderPipelineStages s) all_shader_stages = 0.
Proof.
  unfold getShaderPipelineStages, has_flags.
  destruct (N.eqb_spec (geometryShader (m_features s)) 0) as [Hg | Hg];
    destruct (N.eqb_spec (tessellationShader (m_features s)) 0) as [Ht | Ht];
    simpl negb; cbv iota;
    repeat split; try reflexivity; try (intros _; assumption);
    try (intros _; reflexivity);
    try (intros Hbits; vm_compute in Hbits; discriminate Hbits);
    try (intros Hne; exfalso; apply Hne; assumption).
Qed.

(** ** Presentation *)

Section Presentation.
Context `{env : Environment}.

(** What [presentImage] does to a state, in full. *)
Lemma presentImage_run (presenter : positive) (semaphore : N) (s : State) :
  let status := present_status s presenter semaphore in
  let called :=
    push_event (EvExternal (CallPresent presenter semaphore) status)
      (push_event (EvAcquire SubmissionLock) s) in
  presentImage presenter semaphore s
  = Some (status,
          if (status =? VK_SUCCESS)%Z
          then push_event (EvRelease SubmissionLock)
                 (push_event (EvRelease StatLock)
                    (push_event (EvStatAdd QueuePresentCount 1)
                       (set_statCounters (addCtr (m_statCounters s) QueuePresentCount 1)
                          (push_event (EvAcquire StatLock) called))))
          else push_event (EvRelease SubmissionLock) called).
Proof.
  intros status called. unfold presentImage. unfold_prims. cbn.
  fold (present_status s presenter semaphore). fold status.
  destruct (status =? VK_SUCCESS)%Z; reflexivity.
Qed.

(** C4: [presentImage] returns the status of the present call as it is.
    If the status is not [VK_SUCCESS], no counter changes.  If it is,
    [QueuePresentCount] goes up by one, between taking and releasing the
    counter lock, and no other counter changes. *)
Theorem presentImage_counter (presenter : positive) (semaphore : N) (s : State) :
  exists s',
    presentImage presenter semaphore s = Some (present_status s presenter semaphore, s') /\
    if (present_status s presenter semaphore =? VK_SUCCESS)%Z
    then
      emitted s s' [EvAcquire SubmissionLock;
                    EvExternal (CallPresent presenter semaphore)
                               (present_status s presenter semaphore);
                    EvAcquire StatLock;
                    EvStatAdd QueuePresentCount 1;
                    EvRelease StatLock;
                    EvRelease SubmissionLock] /\
      getCtr (m_statCounters s') QueuePresentCount
        = wrap64 (getCtr (m_statCounters s) QueuePresentCount + 1) /\
      (getCtr (m_statCounters s) QueuePresentCount + 1 < 2 ^ 64 ->
       getCtr (m_statCounters s') QueuePresentCount
         = getCtr (m_statCounters s) QueuePresentCount + 1) /\
      (forall k, k <> QueuePresentCount ->
                 getCtr (m_statCounters s') k = getCtr (m_statCounters s) k)
    else
      emitted s s' [EvAcquire SubmissionLock;
                    EvExternal (CallPresent presenter semaphore)
                               (present_status s presenter semaphore);
                    EvRelease SubmissionLock] /\
      m_statCounters s' = m_statCounters s.
Proof.
  pose proof (presentImage_run presenter semaphore s) as Hrun. cbv zeta in Hrun.
  destruct (present_status s presenter semaphore =? VK_SUCCESS)%Z;
    eexists; (split; [exact Hrun |]).
  - split; [reflexivity |].
    split; [apply getCtr_addCtr_same |].
    split; [intros Hsmall; cbn [m_statCounters set_statCounters push_event];
            rewrite getCtr_addCtr_same; apply wrap64_small; exact Hsmall |].
    intros k Hk. apply getCtr_addCtr_other. exact Hk.
  - split; reflexivity.
Qed.

End Presentation.

(** ** Submission of command lists *)

Section Submission.
Context `{env : Environment}.

(** What [submitCommandList] does to a state in which the command list
    exists: the state after the call, in full. *)
Lemma submitCommandList_run (commandList : positive) (waitSync wakeSync : N)
    (s : State) (cl : DxvkCommandList) :
  commandLists s !! commandList = Some cl ->
  let status := submit_status s commandList waitSync wakeSync in
  let locked :=
    push_event (EvRelease SubmissionLock)
      (push_event (EvRelease StatLock)
         (push_event (EvExternal (CallSubmit commandList (queueHandle (m_graphicsQueue s))
                                    waitSync wakeSync) status)
            (push_event (EvStatAdd QueueSubmitCount 1)
               (set_statCounters
                  (addCtr (merge (m_statCounters s) (cl_statCounters cl)) QueueSubmitCount 1)
                  (push_event (EvStatMerge commandList)
                     (push_event (EvAcquire StatLock)
                        (push_event (EvAcquire SubmissionLock) s))))))) in
  submitCommandList commandList waitSync wakeSync s
  = Some (tt,
          if (status =? VK_SUCCESS)%Z
          then push_event (EvTrack commandList)
                 (set_submissionQueue (m_submissionQueue s ++ [commandList]) locked)
          else push_event (EvLogErr "DxvkDevice: Command buffer submission failed: " status)
                 locked).
Proof.
  intros Hcl status locked.
  unfold submitCommandList. unfold_prims. cbn. rewrite Hcl. cbn.
  fold (submit_status s commandList waitSync wakeSync). fold status.
  destruct (status =? VK_SUCCESS)%Z; reflexivity.
Qed.

(** C5: [submitCommandList] takes the queue lock (and the counter lock),
    merges the statistics of the command list into the aggregator, adds
    one to [QueueSubmitCount], only then submits the list to the graphics
    queue with the given semaphores, and then releases the locks.  The
    counters after the call do not depend on the result of the
    submission. *)
Theorem submitCommandList_order (commandList : positive) (waitSync wakeSync : N)
    (s : State) (cl : DxvkCommandList) :
  commandLists s !! commandList = Some cl ->
  exists s' rest,
    submitCommandList commandList waitSync wakeSync s = Some (tt, s') /\
    emitted s s'
      ([EvAcquire SubmissionLock;
        EvAcquire StatLock;
        EvStatMerge commandList;
        EvStatAdd QueueSubmitCount 1;
        EvExternal (CallSubmit commandList (queueHandle (m_graphicsQueue s)) waitSync wakeSync)
                   (submit_status s commandList waitSync wakeSync);
        EvRelease StatLock;
        EvRelease SubmissionLock] ++ rest) /\
    (rest = [EvTrack commandList] \/
     rest = [EvLogErr "DxvkDevice: Command buffer submission failed: "
                      (submit_status s commandList waitSync wakeSync)]) /\
    getCtr (m_statCounters s') QueueSubmitCount
      = wrap64 (getCtr (merge (m_statCounters s) (cl_statCounters cl)) QueueSubmitCount + 1) /\
    (forall k, k <> QueueSubmitCount ->
       getCtr (m_statCounters s') k = getCtr (merge (m_statCounters s) (cl_statCounters cl)) k).
Proof.
  intros Hcl.
  pose proof (submitCommandList_run commandList waitSync wakeSync s cl Hcl) as Hrun.
  cbv zeta in Hrun.
  destruct (submit_status s commandList waitSync wakeSync =? VK_SUCCESS)%Z.
  - eexists. exists [EvTrack commandList].
    split; [exact Hrun |]. split; [reflexivity |]. split; [left; reflexivity |].
    split; [apply getCtr_addCtr_same | intros k Hk; apply getCtr_addCtr_other; exact Hk].
  - eexists. eexists [EvLogErr _ _].
    split; [exact Hrun |]. split; [reflexivity |]. split; [right; reflexivity |].
    split; [apply getCtr_addCtr_same | intros k Hk; apply getCtr_addCtr_other; exact Hk].
Qed.

(** C6: the command list is handed to the submission queue exactly when
    the hardware submission succeeded; otherwise the status is logged
    as an error and the submission queue is left alone.  In both cases
    no recycler is touched. *)
Theorem submitCommandList_tracking (commandList : positive) (waitSync wakeSync : N)
    (s : State) (cl : DxvkCommandList) :
  commandLists s !! commandList = Some cl ->
  exists s' evs,
    submitCommandList commandList waitSync wakeSync s = Some (tt, s') /\
    emitted s s' evs /\
    (forall p, recycled p s' = recycled p s) /\
    (forall p obj, ~ In (EvReturn p obj) evs) /\
    if (submit_status s commandList waitSync wakeSync =? VK_SUCCESS)%Z
    then
      m_submissionQueue s' = m_submissionQueue s ++ [commandList] /\
      In (EvTrack commandList) evs /\
      (forall msg status, ~ In (EvLogErr msg status) evs)
    else
      m_submissionQueue s' = m_submissionQueue s /\
      In (EvLogErr "DxvkDevice: Command buffer submission failed: "
                   (submit_status s commandList waitSync wakeSync)) evs /\
      (forall l, ~ In (EvTrack l) evs).
Proof.
  intros Hcl.
  pose proof (submitCommandList_run commandList waitSync wakeSync s cl Hcl) as Hrun.
  cbv zeta in Hrun.
  destruct (submit_status s commandList waitSync wakeSync =? VK_SUCCESS)%Z;
    eexists; eexists; (split; [exact Hrun |]).
  - split; [unfold emitted; cbn; instantiate (1 := [_; _; _; _; _; _; _; _]); reflexivity |].
    split; [intros []; reflexivity |].
    split; [intros p obj Hin; cbn in Hin; intuition discriminate |].
    split; [reflexivity |].
    split; [cbn; tauto |].
    intros msg status Hin; cbn in Hin; intuition discriminate.
  - split; [unfold emitted; cbn; instantiate (1 := [_; _; _; _; _; _; _; _]); reflexivity |].
    split; [intros []; reflexivity |].
    split; [intros p obj Hin; cbn in Hin; intuition discriminate |].
    split; [reflexivity |].
    split; [cbn; tauto |].
    intros l Hin; cbn in Hin; intuition discriminate.
Qed.

(** C1, as the code has it: [submitCommandList] returns no value.  It
    submits the list to the hardware queue exactly once, so nothing is
    retried; the result of that submission stays inside the call, which
    hands the list to the submission queue on success and otherwise
    writes the status, as it is, to the error log. *)
Theorem submitCommandList_reports_status (commandList : positive) (waitSync wakeSync : N)
    (s : State) (cl : DxvkCommandList) :
  commandLists s !! commandList = Some cl ->
  exists s' evs,
    submitCommandList commandList waitSync wakeSync s = Some (tt, s') /\
    emitted s s' evs /\
    count_events is_submit_call evs = 1 /\
    last_submit_status (trace s') = Some (submit_status s commandList waitSync wakeSync) /\
    last evs =
      Some (if (submit_status s commandList waitSync wakeSync =? VK_SUCCESS)%Z
            then EvTrack commandList
            else EvLogErr "DxvkDevice: Command buffer submission failed: "
                          (submit_status s commandList waitSync wakeSync)).
Proof.
  intros Hcl.
  pose proof (submitCommandList_run commandList waitSync wakeSync s cl Hcl) as Hrun.
  cbv zeta in Hrun.
  destruct (submit_status s commandList waitSync wakeSync =? VK_SUCCESS)%Z;
    eexists; eexists; (split; [exact Hrun |]);
    (split; [unfold emitted; cbn; instantiate (1 := [_; _; _; _; _; _; _; _]); reflexivity |]);
    repeat split.
Qed.

End Submission.

(** ** Lock discipline *)

Section Locks.
Context `{env : Environment}.

(** The check is not idle: taking the queue lock while the counter lock
    is held is refused, and so is taking a lock twice. *)
Example lock_order_refuses_inversion :
  lock_order [] [EvAcquire StatLock; EvAcquire SubmissionLock] = false /\
  lock_order [] [EvAcquire StatLock; EvAcquire StatLock] = false /\
  lock_order [] [EvAcquire SubmissionLock; EvAcquire StatLock;
                 EvRelease StatLock; EvRelease SubmissionLock] = true.
Proof. repeat split. Qed.

(** Every single call respects the lock order and gives back its locks. *)
Lemma step_lock_order (o : Op) (s s' : State) :
  step o s = Some s' ->
  exists evs, emitted s s' evs /\ lock_order [] evs = true /\ held_after [] evs = [].
Proof.
  intros H. destruct o; unfold_methods H; method_cases H.
  all: inversion H; subst; clear H.
  all: match goal with
     | |- exists evs, emitted ?s ?s' evs /\ _ =>
         let l := eval cbn in (trace s') in
         let p := newer_than l (trace s) in
         exists (rev p)
     end.
  all: split; [unfold emitted; cbn; reflexivity | split; vm_compute; reflexivity].
Qed.

(** C7: in every sequence of calls to the device, whenever the queue
    lock and the counter lock are both held, the queue lock was taken
    first and the counter lock second; a lock is never taken twice, and
    every call gives back the locks it took. *)
Theorem lock_order_respected (ops : list Op) (s s' : State) :
  run ops s = Some s' ->
  exists evs, emitted s s' evs /\ lock_order [] evs = true /\ held_after [] evs = [].
Proof.
  revert s. induction ops as [| o ops IH]; intros s Hrun; cbn in Hrun.
  - inversion Hrun; subst. exists []. repeat split.
  - destruct (step o s) as [s1 |] eqn:Hstep; [| discriminate Hrun].
    destruct (step_lock_order o s s1 Hstep) as (evs1 & Hem1 & Hord1 & Hheld1).
    destruct (IH s1 Hrun) as (evs2 & Hem2 & Hord2 & Hheld2).
    exists (evs1 ++ evs2). split; [exact (emitted_trans _ _ _ _ _ Hem1 Hem2) |].
    rewrite lock_order_app, held_after_app, Hheld1, Hord1, Hord2, Hheld2.
    split; reflexivity.
Qed.

End Locks.

(** ** Staging buffers *)

Section Staging.
Context `{env : Environment}.

Lemma allocStagingBuffer_size (size : N) (s : State) :
  staging_pool_standard s ->
  exists buffer s',
    allocStagingBuffer size s = Some (buffer, s') /\
    staging_size_is s' buffer
      (if size <=? DefaultStagingBufferSize then DefaultStagingBufferSize else size).
Proof.
  intros Hpool. unfold allocStagingBuffer, allocStagingBuffer_fresh. unfold_prims.
  destruct (size <=? DefaultStagingBufferSize) eqn:Hle.
  - destruct (recycled StagingBuffers s) as [| b idle] eqn:Hidle; cbn.
    + rewrite lookup_insert_eq. cbn.
      eexists. eexists. split; [reflexivity |].
      unfold staging_size_is. cbn. rewrite lookup_insert_eq.
      eexists. split; [reflexivity |]. cbn.
      destruct (N.ltb_spec size DefaultStagingBufferSize) as [Hlt | Hge]; [reflexivity |].
      apply N.leb_le in Hle. lia.
    + eexists. eexists. split; [reflexivity |].
      unfold staging_pool_standard in Hpool. cbn in Hidle. rewrite Hidle in Hpool.
      apply Forall_inv in Hpool. exact Hpool.
  - cbn. rewrite lookup_insert_eq. cbn.
    eexists. eexists. split; [reflexivity |].
    unfold staging_size_is. cbn. rewrite lookup_insert_eq.
    eexists. split; [reflexivity |]. cbn.
    destruct (N.ltb_spec size DefaultStagingBufferSize) as [Hlt | Hge]; [| reflexivity].
    apply N.leb_gt in Hle. lia.
Qed.

Lemma step_staging_pool (o : Op) (s s' : State) :
  step o s = Some s' -> staging_pool_standard s -> staging_pool_standard s'.
Proof.
  intros H Hpool. unfold staging_pool_standard, staging_size_is in *.
  destruct o; unfold_methods H; method_cases H.
  all: inversion H; subst; clear H; cbn in *.
  all: try exact Hpool.
  all: try match goal with
         | Hidle : m_recycledStagingBuffers _ = _ |- _ => rewrite Hidle in *
         end.
  all: try (eapply Forall_impl; [exact Hpool |];
            intros l Hl; apply size_kept_by_fresh; exact Hl).
  all: try (eapply Forall_impl; [exact Hpool |];
            intros l Hl; eapply size_kept_by_update; [eassumption | reflexivity | exact Hl]).
  - inversion Hpool; assumption.
  - match goal with
    | Hsize : (m_bufferSize _ =? _) = true |- _ => apply N.eqb_eq in Hsize
    end.
    constructor.
    + eexists. rewrite lookup_insert_eq. split; [reflexivity | cbn; congruence].
    + eapply Forall_impl; [exact Hpool |].
      intros l Hl. eapply size_kept_by_update; [eassumption | reflexivity | exact Hl].
Qed.

Lemma new_device_staging_pool (adapter : DxvkAdapter) (features : DxvkDeviceFeatures)
    (graphicsHandle presentHandle : N) :
  staging_pool_standard (DxvkDevice_new adapter features graphicsHandle presentHandle).
Proof. constructor. Qed.

Lemma run_staging_pool (ops : list Op) (s s' : State) :
  run ops s = Some s' -> staging_pool_standard s -> staging_pool_standard s'.
Proof.
  revert s. induction ops as [| o ops IH]; intros s Hrun Hpool; cbn in Hrun.
  - inversion Hrun; subst; exact Hpool.
  - destruct (step o s) as [s1 |] eqn:Hstep; [| discriminate Hrun].
    apply (IH s1 Hrun). exact (step_staging_pool o s s1 Hstep Hpool).
Qed.

(** C2: on a device that has been used in any way since its construction,
    [allocStagingBuffer] returns a buffer, and the size of that buffer is
    the standard size when the request does not exceed it and the
    requested size otherwise. *)
Theorem allocStagingBuffer_returns_size (adapter : DxvkAdapter) (features : DxvkDeviceFeatures)
    (graphicsHandle presentHandle : N) (ops : list Op) (s : State) (size : N) :
  run ops (DxvkDevice_new adapter features graphicsHandle presentHandle) = Some s ->
  exists buffer s',
    allocStagingBuffer size s = Some (buffer, s') /\
    staging_size_is s' buffer
      (if size <=? DefaultStagingBufferSize then DefaultStagingBufferSize else size).
Proof.
  intros Hrun. apply allocStagingBuffer_size.
  eapply run_staging_pool; [exact Hrun | apply new_device_staging_pool].
Qed.

(** The state [recycleStagingBuffer] has reached when it returns: a
    buffer of exactly the standard size is in the recycler and empty; for
    a buffer of any other size nothing has changed.  This says nothing
    about the states the call passes through, which are where C3 fails
    (see [recycleStagingBuffer_returns_then_resets]). *)
Lemma recycleStagingBuffer_post (buffer : positive) (s : State) (b : DxvkStagingBuffer) :
  stagingBuffers s !! buffer = Some b ->
  exists s',
    recycleStagingBuffer buffer s = Some (tt, s') /\
    if m_bufferSize b =? DefaultStagingBufferSize
    then
      recycled StagingBuffers s' = buffer :: recycled StagingBuffers s /\
      staging_is_reset s' buffer /\
      staging_size_is s' buffer DefaultStagingBufferSize /\
      recycled CommandLists s' = recycled CommandLists s /\
      recycled DescriptorPools s' = recycled DescriptorPools s
    else s' = s.
Proof.
  intros Hb. unfold recycleStagingBuffer. unfold_prims. cbn. rewrite Hb. cbn.
  destruct (m_bufferSize b =? DefaultStagingBufferSize) eqn:Hsize; cbn.
  - rewrite Hb. cbn. eexists. split; [reflexivity |].
    unfold staging_is_reset, staging_size_is. cbn. rewrite lookup_insert_eq.
    apply N.eqb_eq in Hsize.
    repeat split; eexists; (split; [reflexivity |]); cbn; [reflexivity | exact Hsize].
  - exists s. split; reflexivity.
Qed.

End Staging.

(** ** Recycled command lists and descriptor pools *)

(** C8, as the code has it: [createCommandList] and [createDescriptorPool]
    always return an object.  If the recycler holds an idle instance, it
    is taken out and returned as it is: nothing is reset and no object in
    the store changes.  Only if the recycler is empty is a fresh, empty
    object constructed. *)
Theorem create_takes_pooled_as_is (s : State) :
  match recycled CommandLists s with
  | obj :: idle =>
      exists s',
        createCommandList s = Some (obj, s') /\
        emitted s s' [EvRetrieve CommandLists (Some obj)] /\
        recycled CommandLists s' = idle /\
        commandLists s' = commandLists s
  | [] =>
      exists obj s',
        createCommandList s = Some (obj, s') /\
        emitted s s' [EvRetrieve CommandLists None; EvNew KCommandList obj] /\
        commandLists s !! obj = None /\
        commandLists s' !! obj
          = Some {| cl_queueFamily := graphicsQueueFamily (m_adapter s);
                    cl_recorded := 0;
                    cl_statCounters := zeroCounters |}
  end /\
  match recycled DescriptorPools s with
  | obj :: idle =>
      exists s',
        createDescriptorPool s = Some (obj, s') /\
        emitted s s' [EvRetrieve DescriptorPools (Some obj)] /\
        recycled DescriptorPools s' = idle /\
        descriptorPools s' = descriptorPools s
  | [] =>
      exists obj s',
        createDescriptorPool s = Some (obj, s') /\
        emitted s s' [EvRetrieve DescriptorPools None; EvNew KDescriptorPool obj] /\
        descriptorPools s !! obj = None /\
        descriptorPools s' !! obj = Some {| dp_allocated := 0 |}
  end.
Proof.
  split.
  - unfold createCommandList. unfold_prims.
    destruct (recycled CommandLists s) as [| obj idle]; cbn.
    + eexists. eexists. split; [reflexivity |]. split; [reflexivity |]. cbn.
      split; [| apply lookup_insert_eq].
      apply not_elem_of_dom. apply is_fresh.
    + eexists. split; [reflexivity |]. repeat split.
  - unfold createDescriptorPool. unfold_prims.
    destruct (recycled DescriptorPools s) as [| obj idle]; cbn.
    + eexists. eexists. split; [reflexivity |]. split; [reflexivity |]. cbn.
      split; [| apply lookup_insert_eq].
      apply not_elem_of_dom. apply is_fresh.
    + eexists. split; [reflexivity |]. repeat split.
Qed.

(** ** The frame counter *)

Section Frames.
Context `{env : Environment}.

Lemma step_presents_tallied (o : Op) (s s' : State) :
  step o s = Some s' ->
  match o with
  | OpSubmitCommandList commandList _ _ =>
      forall cl, commandLists s !! commandList = Some cl ->
                 getCtr (cl_statCounters cl) QueuePresentCount = 0
  | _ => True
  end ->
  presents_tallied s -> presents_tallied s'.
Proof.
  intros H Hsub Hctr. unfold presents_tallied, successful_presents in *.
  destruct o; unfold_methods H; method_cases H.
  all: inversion H; subst; clear H; cbn in *.
  all: rewrite ?count_events_cons; cbn.
  all: repeat match goal with
         | Hneg : negb _ = true |- _ => apply negb_true_iff in Hneg
         | Hneg : negb _ = false |- _ => apply negb_false_iff in Hneg
         end.
  all: try match goal with
         | Hst : (driver _ _ =? _)%Z = _ |- _ => rewrite Hst
         end.
  all: rewrite ?N.add_0_l.
  all: try exact Hctr.
  - (* presentImage, success *)
    change (getCtr (addCtr (m_statCounters s) QueuePresentCount 1) QueuePresentCount
            = wrap64 (1 + count_events is_successful_present (trace s))).
    rewrite getCtr_addCtr_same, Hctr, wrap64_add_l. f_equal. lia.
  - (* submitCommandList, success *)
    match goal with
    | Hd : commandLists s !! _ = Some ?d |- _ =>
        change (getCtr (addCtr (merge (m_statCounters s) (cl_statCounters d))
                          QueueSubmitCount 1) QueuePresentCount
                = wrap64 (count_events is_successful_present (trace s)));
        rewrite getCtr_addCtr_other by discriminate;
        rewrite getCtr_merge, (Hsub _ eq_refl), N.add_0_r, Hctr
    end.
    apply wrap64_idem.
  - (* submitCommandList, failure *)
    match goal with
    | Hd : commandLists s !! _ = Some ?d |- _ =>
        change (getCtr (addCtr (merge (m_statCounters s) (cl_statCounters d))
                          QueueSubmitCount 1) QueuePresentCount
                = wrap64 (count_events is_successful_present (trace s)));
        rewrite getCtr_addCtr_other by discriminate;
        rewrite getCtr_merge, (Hsub _ eq_refl), N.add_0_r, Hctr
    end.
    apply wrap64_idem.
Qed.

Lemma run_presents_tallied (ops : list Op) (s s' : State) :
  run ops s = Some s' -> submits_carry_no_presents ops s ->
  presents_tallied s -> presents_tallied s'.
Proof.
  revert s. induction ops as [| o ops IH]; intros s Hrun Hops Hinv; cbn in Hrun.
  - inversion Hrun; subst; exact Hinv.
  - cbn in Hops. destruct Hops as [Ho Hrest].
    destruct (step o s) as [s1 |] eqn:Hstep; [| discriminate Hrun].
    apply (IH s1 Hrun Hrest). exact (step_presents_tallied o s s1 Hstep Ho Hinv).
Qed.

(** C9, as the code has it: the frame identifier is the present counter
    cut down to 32 bits.  On a device used in any way since its
    construction, as long as no command list carries a present count of
    its own when it is submitted, the counter is the number of successful
    presents (modulo 2^64), so the frame identifier is that number
    modulo 2^32. *)
Theorem getCurrentFrameId_counts_presents (adapter : DxvkAdapter)
    (features : DxvkDeviceFeatures) (graphicsHandle presentHandle : N)
    (ops : list Op) (s : State) :
  run ops (DxvkDevice_new adapter features graphicsHandle presentHandle) = Some s ->
  submits_carry_no_presents ops
    (DxvkDevice_new adapter features graphicsHandle presentHandle) ->
  getCurrentFrameId s = wrap32 (getCtr (m_statCounters s) QueuePresentCount) /\
  getCtr (m_statCounters s) QueuePresentCount = wrap64 (successful_presents s) /\
  getCurrentFrameId s = wrap32 (successful_presents s).
Proof.
  intros Hrun Hops.
  assert (Hctr : presents_tallied s)
    by (apply (run_presents_tallied ops _ s Hrun Hops); reflexivity).
  split; [reflexivity |]. split; [exact Hctr |].
  unfold getCurrentFrameId. rewrite Hctr. apply wrap32_wrap64.
Qed.

End Frames.

(** ** Instances

    The theorems with hypotheses, applied to the sample devices, and the
    concrete runs on which the statements that the code does not satisfy
    fail. *)

(** The scenario of the staging buffer provider: a request of 64 bytes
    yields a buffer of the standard size; once it is given back, a
    request of 1024 bytes yields the same instance. *)
Example staging_buffer_is_reused :
  exists s1 s2,
    @allocStagingBuffer env_accepts 64 sample_device = Some (1%positive, s1) /\
    staging_size_is s1 1 65536 /\
    @recycleStagingBuffer env_accepts 1 s1 = Some (tt, s2) /\
    exists s3,
      @allocStagingBuffer env_accepts 1024 s2 = Some (1%positive, s3) /\
      staging_size_is s3 1 65536.
Proof.
  eexists. eexists. split; [vm_compute; reflexivity |].
  split; [eexists; split; vm_compute; reflexivity |].
  split; [vm_compute; reflexivity |].
  eexists. split; [vm_compute; reflexivity |].
  eexists; split; vm_compute; reflexivity.
Qed.

(** C2 on a device whose recycler holds one buffer: a request of 1024
    bytes is served with the standard size. *)
Lemma allocStagingBuffer_returns_size_witness :
  @run env_accepts [OpAllocStagingBuffer 64; OpStagingWrite 1 100; OpRecycleStagingBuffer 1]
       sample_device = Some sample_staging_recycled /\
  exists buffer s',
    @allocStagingBuffer env_accepts 1024 sample_staging_recycled = Some (buffer, s') /\
    staging_size_is s' buffer 65536.
Proof.
  split; [vm_compute; reflexivity |].
  apply (@allocStagingBuffer_returns_size env_accepts sample_adapter sample_features 1 2
           [OpAllocStagingBuffer 64; OpStagingWrite 1 100; OpRecycleStagingBuffer 1]
           sample_staging_recycled 1024).
  vm_compute; reflexivity.
Defined.

(** Against C1 as stated: the same submission, once accepted by the
    hardware queue and once refused with [VK_ERROR_DEVICE_LOST], returns
    the same value to the caller. *)
Lemma submitCommandList_status_not_returned :
  exists r1 s1 r2 s2,
    @submitCommandList env_accepts 1 5 6 sample_recorded = Some (r1, s1) /\
    @submitCommandList env_lost 1 5 6 sample_recorded = Some (r2, s2) /\
    last_submit_status (trace s1) = Some VK_SUCCESS /\
    last_submit_status (trace s2) = Some VK_ERROR_DEVICE_LOST /\
    r1 = r2.
Proof.
  eexists. eexists. eexists. eexists.
  split; [vm_compute; reflexivity |].
  split; [vm_compute; reflexivity |].
  split; [vm_compute; reflexivity |].
  split; [vm_compute; reflexivity | reflexivity].
Qed.

(** The state after one more successful present. *)
Lemma present_once_run (s : State) :
  present_once s
  = push_event (EvRelease SubmissionLock)
      (push_event (EvRelease StatLock)
         (push_event (EvStatAdd QueuePresentCount 1)
            (set_statCounters (addCtr (m_statCounters s) QueuePresentCount 1)
               (push_event (EvAcquire StatLock)
                  (push_event (EvExternal (CallPresent 1 1) VK_SUCCESS)
                     (push_event (EvAcquire SubmissionLock) s)))))).
Proof.
  unfold present_once, step, exec.
  rewrite (@presentImage_run env_accepts 1 1 s). reflexivity.
Qed.

(** After [n] successful presents on a new device the counter is [n]
    in 64-bit arithmetic, and [n] presents are on record. *)
Lemma iter_present_counter (n : N) :
  getCtr (m_statCounters (N.iter n present_once sample_device)) QueuePresentCount = wrap64 n.
Proof.
  induction n as [| n IH] using N.peano_ind.
  - reflexivity.
  - rewrite N.iter_succ, present_once_run.
    cbn [m_statCounters set_statCounters push_event].
    rewrite getCtr_addCtr_same, IH, wrap64_add_l. f_equal. lia.
Qed.

Lemma iter_present_count (n : N) :
  successful_presents (N.iter n present_once sample_device) = n.
Proof.
  unfold successful_presents.
  induction n as [| n IH] using N.peano_ind.
  - reflexivity.
  - rewrite N.iter_succ, present_once_run.
    cbn [trace set_statCounters push_event].
    rewrite !count_events_cons, IH. cbn. lia.
Qed.

(** Against C9 as stated: after 2^32 successful presents the counter is
    2^32 and the frame identifier is 0. *)
Lemma getCurrentFrameId_wraps :
  successful_presents (N.iter 4294967296 present_once sample_device) = 4294967296 /\
  getCtr (m_statCounters (N.iter 4294967296 present_once sample_device)) QueuePresentCount
    = 4294967296 /\
  getCurrentFrameId (N.iter 4294967296 present_once sample_device) = 0.
Proof.
  split; [apply iter_present_count |].
  unfold getCurrentFrameId. rewrite iter_present_counter.
  split; reflexivity.
Qed.

(** A command list whose statistics carry a present count moves the
    frame identifier without any present. *)
Example merged_present_count_moves_frame_id :
  exists s,
    @run env_accepts
         [OpCreateCommandList; OpRecord 1 1 (setCtr zeroCounters QueuePresentCount 5);
          OpSubmitCommandList 1 5 6] sample_device = Some s /\
    successful_presents s = 0 /\
    getCurrentFrameId s = 5.
Proof. eexists. split; [vm_compute; reflexivity |]. split; vm_compute; reflexivity. Qed.

(** C3, where the code breaks it: C3 wants a buffer reset before it is
    made available for retrieval.  Given a standard-size buffer with 100
    bytes written, [recycleStagingBuffer] first inserts it into the
    recycler and only then resets it.  Between the two actions the buffer
    is idle and a [retrieveObject] gets it, with its 100 bytes still
    counted as written. *)
Lemma recycleStagingBuffer_returns_then_resets :
  stagingBuffers sample_staging_used !! 1%positive
    = Some {| m_buffer := 1; m_bufferSize := 65536; m_bufferOffset := 100 |} /\
  (exists s',
     @recycleStagingBuffer env_accepts 1 sample_staging_used = Some (tt, s') /\
     emitted sample_staging_used s' [EvReturn StagingBuffers 1; EvReset 1]) /\
  (exists mid rest,
     returnObject StagingBuffers 1 sample_staging_used = Some (tt, mid) /\
     retrieveObject StagingBuffers mid = Some (Some 1%positive, rest) /\
     (m_bufferOffset <$> stagingBuffers mid !! 1%positive) = Some 100).
Proof.
  split; [vm_compute; reflexivity |]. split.
  - eexists. split; vm_compute; reflexivity.
  - eexists. eexists. split; [vm_compute; reflexivity |].
    split; vm_compute; reflexivity.
Qed.

(** Against C8 as stated: a command list given back with three recorded
    commands comes out of [createCommandList] with the three commands
    and their statistics still in it. *)
Lemma createCommandList_returns_unreset :
  recycled CommandLists sample_list_recycled = [1%positive] /\
  exists s',
    createCommandList sample_list_recycled = Some (1%positive, s') /\
    emitted sample_list_recycled s' [EvRetrieve CommandLists (Some 1%positive)] /\
    (cl_recorded <$> commandLists s' !! 1%positive) = Some 3 /\
    ((fun cl => getCtr (cl_statCounters cl) (OtherCounter 0)) <$> commandLists s' !! 1%positive)
      = Some 3.
Proof.
  split; [vm_compute; reflexivity |].
  eexists. split; [vm_compute; reflexivity |].
  split; [vm_compute; reflexivity |].
  split; vm_compute; reflexivity.
Qed.

(** C5 on the recorded sample list, with a submission that the driver
    refuses. *)
Lemma submitCommandList_order_witness :
  commandLists sample_recorded !! 1%positive
    = Some {| cl_queueFamily := 0; cl_recorded := 3;
              cl_statCounters := merge zeroCounters sample_stats |} /\
  exists s' rest,
    @submitCommandList env_strict 1 0 6 sample_recorded = Some (tt, s') /\
    emitted sample_recorded s'
      ([EvAcquire SubmissionLock;
        EvAcquire StatLock;
        EvStatMerge 1;
        EvStatAdd QueueSubmitCount 1;
        EvExternal (CallSubmit 1 (queueHandle (m_graphicsQueue sample_recorded)) 0 6)
                   (@submit_status env_strict sample_recorded 1 0 6);
        EvRelease StatLock;
        EvRelease SubmissionLock] ++ rest) /\
    (rest = [EvTrack 1] \/
     rest = [EvLogErr "DxvkDevice: Command buffer submission failed: "
                      (@submit_status env_strict sample_recorded 1 0 6)]) /\
    getCtr (m_statCounters s') QueueSubmitCount
      = wrap64 (getCtr (merge (m_statCounters sample_recorded)
                              (merge zeroCounters sample_stats)) QueueSubmitCount + 1) /\
    (forall k, k <> QueueSubmitCount ->
       getCtr (m_statCounters s') k
       = getCtr (merge (m_statCounters sample_recorded)
                       (merge zeroCounters sample_stats)) k).
Proof.
  split; [vm_compute; reflexivity |].
  apply (@submitCommandList_order env_strict 1 0 6 sample_recorded
           {| cl_queueFamily := 0; cl_recorded := 3;
              cl_statCounters := merge zeroCounters sample_stats |}).
  vm_compute; reflexivity.
Defined.

(** C6 on the recorded sample list: an accepted submission is tracked, a
    refused one is not. *)
Lemma submitCommandList_tracking_witness :
  commandLists sample_recorded !! 1%positive
    = Some {| cl_queueFamily := 0; cl_recorded := 3;
              cl_statCounters := merge zeroCounters sample_stats |} /\
  (exists s', @submitCommandList env_strict 1 5 6 sample_recorded = Some (tt, s') /\
              m_submissionQueue s' = [1%positive]) /\
  (exists s', @submitCommandList env_strict 1 0 6 sample_recorded = Some (tt, s') /\
              m_submissionQueue s' = []).
Proof.
  split; [vm_compute; reflexivity |]. split.
  - destruct (@submitCommandList_tracking env_strict 1 5 6 sample_recorded
                {| cl_queueFamily := 0; cl_recorded := 3;
                   cl_statCounters := merge zeroCounters sample_stats |})
      as (s' & evs & Hrun & _ & _ & _ & Hq); [vm_compute; reflexivity |].
    exists s'. split; [exact Hrun |]. exact (proj1 Hq).
  - destruct (@submitCommandList_tracking env_strict 1 0 6 sample_recorded
                {| cl_queueFamily := 0; cl_recorded := 3;
                   cl_statCounters := merge zeroCounters sample_stats |})
      as (s' & evs & Hrun & _ & _ & _ & Hq); [vm_compute; reflexivity |].
    exists s'. split; [exact Hrun |]. exact (proj1 Hq).
Defined.

(** The amended C1 on the recorded sample list and a lost device: one
    submission, and the status ends in the error log. *)
Lemma submitCommandList_reports_status_witness :
  commandLists sample_recorded !! 1%positive
    = Some {| cl_queueFamily := 0; cl_recorded := 3;
              cl_statCounters := merge zeroCounters sample_stats |} /\
  exists s' evs,
    @submitCommandList env_lost 1 5 6 sample_recorded = Some (tt, s') /\
    emitted sample_recorded s' evs /\
    count_events is_submit_call evs = 1 /\
    last_submit_status (trace s') = Some VK_ERROR_DEVICE_LOST /\
    last evs = Some (EvLogErr "DxvkDevice: Command buffer submission failed: "
                              VK_ERROR_DEVICE_LOST).
Proof.
  split; [vm_compute; reflexivity |].
  apply (@submitCommandList_reports_status env_lost 1 5 6 sample_recorded
           {| cl_queueFamily := 0; cl_recorded := 3;
              cl_statCounters := merge zeroCounters sample_stats |}).
  vm_compute; reflexivity.
Defined.

(** C7 on the sample session. *)
Lemma lock_order_respected_witness :
  @run env_strict sample_session sample_device = Some sample_after_session /\
  exists evs,
    emitted sample_device sample_after_session evs /\
    lock_order [] evs = true /\ held_after [] evs = [].
Proof.
  split; [vm_compute; reflexivity |].
  apply (@lock_order_respected env_strict sample_session sample_device sample_after_session).
  vm_compute; reflexivity.
Defined.

(** The amended C9 on the sample frames: a list that is never submitted
    carries a present count, of three presents two succeed, and the
    frame identifier is 2. *)
Lemma getCurrentFrameId_counts_presents_witness :
  @run env_strict sample_frames sample_device = Some sample_after_frames /\
  @submits_carry_no_presents env_strict sample_frames sample_device /\
  successful_presents sample_after_frames = 2 /\
  getCurrentFrameId sample_after_frames = 2.
Proof.
  split; [vm_compute; reflexivity |].
  assert (Hops : @submits_carry_no_presents env_strict sample_frames sample_device).
  { vm_compute. repeat split. intros cl Hcl. inversion Hcl. reflexivity. }
  split; [exact Hops |].
  split; [vm_compute; reflexivity |].
  destruct (@getCurrentFrameId_counts_presents env_strict sample_adapter sample_features 1 2
              sample_frames sample_after_frames) as (_ & _ & Hid);
    [vm_compute; reflexivity | exact Hops |].
  rewrite Hid. vm_compute; reflexivity.
Defined.

(** * Further properties of the device *)

Section Sessions.
Context `{env : Environment}.

(** ** What becomes of submissions *)

Lemma step_submissions_accounted (o : Op) (s s' : State) :
  step o s = Some s' -> submissions_accounted s -> submissions_accounted s'.
Proof.
  intros H (Hq & Htr & Hlog).
  unfold submissions_accounted, tracked_lists, accepted_submissions,
    logged_statuses, refused_submissions in *.
  destruct o; unfold_methods H; method_cases H.
  all: inversion H; subst; clear H; cbn in *.
  all: try match goal with
         | Hst : (driver _ _ =? _)%Z = _ |- _ => rewrite Hst
         end.
  all: try (split; [exact Hq | split; [exact Htr | exact Hlog]]).
  - (* submitCommandList, accepted *)
    cbn. rewrite Hq, Htr, Hlog. repeat split.
  - (* submitCommandList, refused *)
    cbn. rewrite Hq, Htr, Hlog. repeat split.
Qed.

Lemma run_submissions_accounted (ops : list Op) (s s' : State) :
  run ops s = Some s' -> submissions_accounted s -> submissions_accounted s'.
Proof.
  revert s. induction ops as [| o ops IH]; intros s Hrun Hinv; cbn in Hrun.
  - inversion Hrun; subst; exact Hinv.
  - destruct (step o s) as [s1 |] eqn:Hstep; [| discriminate Hrun].
    apply (IH s1 Hrun). exact (step_submissions_accounted o s s1 Hstep Hinv).
Qed.

Lemma new_device_submissions_accounted (adapter : DxvkAdapter)
    (features : DxvkDeviceFeatures) (graphicsHandle presentHandle : N) :
  submissions_accounted (DxvkDevice_new adapter features graphicsHandle presentHandle).
Proof. repeat split. Qed.

(** X1: over any session of a device, the command lists handed to the
    submission queue are exactly the lists whose hardware submission
    returned [VK_SUCCESS], each once and in the order of submission. *)
Theorem tracked_are_accepted_submissions (adapter : DxvkAdapter)
    (features : DxvkDeviceFeatures) (graphicsHandle presentHandle : N)
    (ops : list Op) (s : State) :
  run ops (DxvkDevice_new adapter features graphicsHandle presentHandle) = Some s ->
  tracked_lists (trace s) = accepted_submissions (trace s) /\
  m_submissionQueue s = rev (accepted_submissions (trace s)).
Proof.
  intros Hrun.
  destruct (run_submissions_accounted ops _ s Hrun
              (new_device_submissions_accounted adapter features graphicsHandle presentHandle))
    as (Hq & Htr & _).
  split; [exact Htr | exact Hq].
Qed.

(** X2: over any session of a device, the statuses written to the error
    log are exactly the statuses of the refused submissions, each once
    and in order; a failed present or any other call logs nothing. *)
Theorem logged_are_refused_submissions (adapter : DxvkAdapter)
    (features : DxvkDeviceFeatures) (graphicsHandle presentHandle : N)
    (ops : list Op) (s : State) :
  run ops (DxvkDevice_new adapter features graphicsHandle presentHandle) = Some s ->
  logged_statuses (trace s) = refused_submissions (trace s).
Proof.
  intros Hrun.
  destruct (run_submissions_accounted ops _ s Hrun
              (new_device_submissions_accounted adapter features graphicsHandle presentHandle))
    as (_ & _ & Hlog).
  exact Hlog.
Qed.

End Sessions.

Section Totals.
Context `{env : Environment}.

(** ** The submission counter and the snapshot of the counters *)

Lemma step_submits_counted (o : Op) (s s' : State) :
  step o s = Some s' -> records_no_submits o -> submits_counted s -> submits_counted s'.
Proof.
  intros H Hrec [Hctr Hcl]. unfold submits_counted, submissions in *.
  destruct o; unfold_methods H; method_cases H.
  all: inversion H; subst; clear H; cbn in *.
  all: rewrite ?count_events_cons; cbn.
  all: rewrite ?N.add_0_l.
  all: try (split; [exact Hctr | exact Hcl]).
  - (* createCommandList, fresh object *)
    split; [exact Hctr |]. intros l cl. rewrite lookup_insert.
    case_decide; [| apply Hcl]. intros Heq. inversion Heq. reflexivity.
  - (* submitCommandList, accepted *)
    split; [| exact Hcl].
    match goal with
    | Hd : commandLists s !! _ = Some ?d |- _ =>
        change (getCtr (addCtr (merge (m_statCounters s) (cl_statCounters d))
                          QueueSubmitCount 1) QueueSubmitCount
                = wrap64 (1 + count_events is_submit_call (trace s)));
        rewrite getCtr_addCtr_same, getCtr_merge, (Hcl _ _ Hd), N.add_0_r, Hctr
    end.
    rewrite wrap64_idem, wrap64_add_l. f_equal. lia.
  - (* submitCommandList, refused *)
    split; [| exact Hcl].
    match goal with
    | Hd : commandLists s !! _ = Some ?d |- _ =>
        change (getCtr (addCtr (merge (m_statCounters s) (cl_statCounters d))
                          QueueSubmitCount 1) QueueSubmitCount
                = wrap64 (1 + count_events is_submit_call (trace s)));
        rewrite getCtr_addCtr_same, getCtr_merge, (Hcl _ _ Hd), N.add_0_r, Hctr
    end.
    rewrite wrap64_idem, wrap64_add_l. f_equal. lia.
  - (* recording into a command list *)
    split; [exact Hctr |]. intros l cl. rewrite lookup_insert.
    case_decide; [| apply Hcl]. intros Heq. inversion Heq. cbn.
    match goal with
    | Hd : commandLists s !! _ = Some ?d |- _ =>
        change (getCtr (merge (cl_statCounters d) stats) QueueSubmitCount = 0);
        rewrite getCtr_merge, (Hcl _ _ Hd), Hrec
    end.
    reflexivity.
Qed.

Lemma run_submits_counted (ops : list Op) (s s' : State) :
  run ops s = Some s' -> Forall records_no_submits ops ->
  submits_counted s -> submits_counted s'.
Proof.
  revert s. induction ops as [| o ops IH]; intros s Hrun Hops Hinv; cbn in Hrun.
  - inversion Hrun; subst; exact Hinv.
  - destruct (step o s) as [s1 |] eqn:Hstep; [| discriminate Hrun].
    inversion Hops as [| o' ops' Ho Hrest]; subst.
    apply (IH s1 Hrun Hrest). exact (step_submits_counted o s s1 Hstep Ho Hinv).
Qed.

Lemma new_device_submits_counted (adapter : DxvkAdapter) (features : DxvkDeviceFeatures)
    (graphicsHandle presentHandle : N) :
  submits_counted (DxvkDevice_new adapter features graphicsHandle presentHandle).
Proof.
  split; [reflexivity |]. intros l cl Hl. cbn in Hl. rewrite lookup_empty in Hl. discriminate Hl.
Qed.

(** X3: [QueueSubmitCount] counts every submission made to the hardware
    queue, the refused ones included: with recordings that leave the
    submission counter of their command list alone, it equals the number
    of submissions (modulo 2^64). *)
Theorem submit_counter_counts_attempts (adapter : DxvkAdapter)
    (features : DxvkDeviceFeatures) (graphicsHandle presentHandle : N)
    (ops : list Op) (s : State) :
  run ops (DxvkDevice_new adapter features graphicsHandle presentHandle) = Some s ->
  Forall records_no_submits ops ->
  getCtr (m_statCounters s) QueueSubmitCount = wrap64 (submissions s) /\
  N.of_nat (length (accepted_submissions (trace s)))
    + N.of_nat (length (refused_submissions (trace s))) = submissions s.
Proof.
  intros Hrun Hops.
  destruct (run_submits_counted ops _ s Hrun Hops
              (new_device_submits_counted adapter features graphicsHandle presentHandle))
    as [Hctr _].
  split; [exact Hctr |].
  unfold submissions, accepted_submissions, refused_submissions.
  induction (trace s) as [| e evs IH]; [reflexivity |].
  rewrite count_events_cons, <- IH.
  destruct e as [| | | | | | | | | c r | |]; cbn; try lia.
  destruct c; cbn; [| lia].
  destruct (r =? VK_SUCCESS)%Z; cbn; lia.
Qed.

Lemma wrap64_bounded (n : N) : wrap64 n < 2 ^ 64.
Proof. unfold wrap64. apply N.mod_lt. discriminate. Qed.

Lemma step_counters_bounded (o : Op) (s s' : State) :
  step o s = Some s' -> counters_bounded s -> counters_bounded s'.
Proof.
  intros H Hb. unfold counters_bounded in *.
  destruct o; unfold_methods H; method_cases H.
  all: inversion H; subst; clear H; cbn in *.
  all: try exact Hb.
  all: intros k; unfold getCtr, addCtr, merge; try case_decide;
    try apply wrap64_bounded; apply Hb.
Qed.

Lemma run_counters_bounded (ops : list Op) (s s' : State) :
  run ops s = Some s' -> counters_bounded s -> counters_bounded s'.
Proof.
  revert s. induction ops as [| o ops IH]; intros s Hrun Hinv; cbn in Hrun.
  - inversion Hrun; subst; exact Hinv.
  - destruct (step o s) as [s1 |] eqn:Hstep; [| discriminate Hrun].
    apply (IH s1 Hrun). exact (step_counters_bounded o s s1 Hstep Hinv).
Qed.

Lemma new_device_counters_bounded (adapter : DxvkAdapter) (features : DxvkDeviceFeatures)
    (graphicsHandle presentHandle : N) :
  counters_bounded (DxvkDevice_new adapter features graphicsHandle presentHandle).
Proof. intros k. reflexivity. Qed.

(** Every state a device can reach keeps its running counters within 64
    bits. *)
Lemma reachable_counters_bounded (adapter : DxvkAdapter)
    (features : DxvkDeviceFeatures) (graphicsHandle presentHandle : N)
    (ops : list Op) (s : State) :
  run ops (DxvkDevice_new adapter features graphicsHandle presentHandle) = Some s ->
  counters_bounded s.
Proof.
  intros Hrun.
  exact (run_counters_bounded ops _ s Hrun
           (new_device_counters_bounded adapter features graphicsHandle presentHandle)).
Qed.

Lemma with_live_statistics_bounded (mem : DxvkMemoryStats) (pipe : DxvkPipelineCount)
    (s : State) :
  counters_bounded s -> counters_bounded (with_live_statistics mem pipe s).
Proof. intros Hb k. apply Hb. Qed.

(** X4: in every state whose running counters fit in 64 bits, whatever
    the allocator and the pipeline manager report, [getStatCounters]
    returns a snapshot and changes nothing but the record of actions,
    taking the counter lock only.  In the snapshot the four memory and
    pipeline counters are the values the allocator and the pipeline
    manager report plus the running totals, every other counter is the
    running total itself, and the low 32 bits of its present count are
    the current frame identifier. *)
Theorem getStatCounters_snapshot (s : State) :
  counters_bounded s ->
  exists result,
    getStatCounters s
    = Some (result,
            push_event (EvRelease StatLock)
              (push_event EvStatRead (push_event (EvAcquire StatLock) s))) /\
    getCtr result MemoryAllocated
      = wrap64 (memoryAllocated (m_memory s) + getCtr (m_statCounters s) MemoryAllocated) /\
    getCtr result MemoryUsed
      = wrap64 (memoryUsed (m_memory s) + getCtr (m_statCounters s) MemoryUsed) /\
    getCtr result PipeCountGraphics
      = wrap64 (numGraphicsPipelines (m_pipelineManager s)
                + getCtr (m_statCounters s) PipeCountGraphics) /\
    getCtr result PipeCountCompute
      = wrap64 (numComputePipelines (m_pipelineManager s)
                + getCtr (m_statCounters s) PipeCountCompute) /\
    (forall k, is_live_counter k = false ->
               getCtr result k = getCtr (m_statCounters s) k) /\
    getCurrentFrameId s = wrap32 (getCtr result QueuePresentCount).
Proof.
  intros Hb.
  unfold getStatCounters. unfold_prims. cbn.
  eexists. split; [reflexivity |].
  repeat (split; [reflexivity |]).
  split.
  - intros k Hk.
    destruct k; try discriminate Hk; unfold getCtr, merge, setCtr; cbn;
      apply wrap64_small; apply Hb.
  - unfold getCurrentFrameId. f_equal.
    unfold getCtr, merge, setCtr; cbn. symmetry. apply wrap64_small. apply Hb.
Qed.

End Totals.

Section Pooling.
Context `{env : Environment}.

(** ** Creating, handing out and taking back objects *)

(** X5: the calls that create, hand out or take back objects never take
    the queue lock or the counter lock. *)
Theorem pooling_calls_take_no_lock (o : Op) (s s' : State) :
  is_pooling_call o = true ->
  step o s = Some s' ->
  exists evs, emitted s s' evs /\ count_events is_lock_event evs = 0.
Proof.
  intros Hpool H. destruct o; try discriminate Hpool; unfold_methods H; method_cases H.
  all: inversion H; subst; clear H.
  all: match goal with
     | |- exists evs, emitted ?s ?s' evs /\ _ =>
         let l := eval cbn in (trace s') in
         let p := newer_than l (trace s) in
         exists (rev p)
     end.
  all: split; [unfold emitted; cbn; reflexivity | vm_compute; reflexivity].
Qed.

Lemma staging_size_floor (size : N) :
  (if size <? DefaultStagingBufferSize then DefaultStagingBufferSize else size)
  = N.max size DefaultStagingBufferSize.
Proof. destruct (N.ltb_spec size DefaultStagingBufferSize); lia. Qed.

(** X6: when [allocStagingBuffer] cannot recycle (the request exceeds
    the standard size, or the recycler is empty), it constructs a new
    buffer of max(size, standard size) bytes for transfer-source use,
    visible to transfer and host stages, in host-visible, host-coherent
    memory, and wraps it in a new, empty staging buffer.  A request above
    the standard size does not even look into the recycler, and the
    recycler is unchanged either way. *)
Theorem allocStagingBuffer_constructs (size : N) (s : State) :
  DefaultStagingBufferSize < size \/ recycled StagingBuffers s = [] ->
  exists staging buffer s',
    allocStagingBuffer size s = Some (staging, s') /\
    emitted s s'
      ((if size <=? DefaultStagingBufferSize
        then [EvRetrieve StagingBuffers None] else [])
       ++ [EvNew KBuffer buffer; EvNew KStagingBuffer staging]) /\
    buffers s !! buffer = None /\
    stagingBuffers s !! staging = None /\
    buffers s' = <[buffer := {| buf_info := staging_buffer_info size;
                                buf_memFlags := N.lor VK_MEMORY_PROPERTY_HOST_VISIBLE_BIT
                                                      VK_MEMORY_PROPERTY_HOST_COHERENT_BIT |}]>
                   (buffers s) /\
    stagingBuffers s' = <[staging := {| m_buffer := buffer;
                                        m_bufferSize := N.max size DefaultStagingBufferSize;
                                        m_bufferOffset := 0 |}]> (stagingBuffers s) /\
    (forall p, recycled p s' = recycled p s).
Proof.
  intros Hcase.
  assert (Hfresh : forall s0 : State,
    recycled StagingBuffers s0 = recycled StagingBuffers s ->
    buffers s0 = buffers s -> stagingBuffers s0 = stagingBuffers s ->
    exists staging buffer s',
      allocStagingBuffer_fresh size s0 = Some (staging, s') /\
      trace s' = EvNew KStagingBuffer staging :: EvNew KBuffer buffer :: trace s0 /\
      buffers s !! buffer = None /\
      stagingBuffers s !! staging = None /\
      buffers s' = <[buffer := {| buf_info := staging_buffer_info size;
                                  buf_memFlags := N.lor VK_MEMORY_PROPERTY_HOST_VISIBLE_BIT
                                                        VK_MEMORY_PROPERTY_HOST_COHERENT_BIT |}]>
                     (buffers s) /\
      stagingBuffers s' = <[staging := {| m_buffer := buffer;
                                          m_bufferSize := N.max size DefaultStagingBufferSize;
                                          m_bufferOffset := 0 |}]> (stagingBuffers s) /\
      (forall p, recycled p s' = recycled p s0)).
  { intros s0 Hr Hbuf Hst.
    unfold allocStagingBuffer_fresh. unfold_prims. cbn.
    rewrite lookup_insert_eq. cbn.
    eexists. eexists. eexists. split; [reflexivity |]. cbn.
    split; [reflexivity |].
    split; [rewrite Hbuf; apply not_elem_of_dom, is_fresh |].
    split; [rewrite Hst; apply not_elem_of_dom, is_fresh |].
    unfold staging_buffer_info. rewrite staging_size_floor, Hbuf, Hst.
    split; [reflexivity |]. split; [reflexivity |].
    intros []; reflexivity. }
  unfold allocStagingBuffer.
  destruct (size <=? DefaultStagingBufferSize) eqn:Hle.
  - destruct Hcase as [Hgt | Hempty]; [apply N.leb_le in Hle; lia |].
    unfold retrieveObject, bind. rewrite Hempty.
    destruct (Hfresh (push_event (EvRetrieve StagingBuffers None) s))
      as (staging & buffer & s' & Hrun & Htr & Hb & Hs & Hbs & Hss & Hp);
      try reflexivity.
    exists staging, buffer, s'. split; [exact Hrun |].
    split; [unfold emitted; rewrite Htr; reflexivity |].
    repeat (split; [assumption |]). exact Hp.
  - destruct (Hfresh s) as (staging & buffer & s' & Hrun & Htr & Hb & Hs & Hbs & Hss & Hp);
      try reflexivity.
    exists staging, buffer, s'. split; [exact Hrun |].
    split; [unfold emitted; rewrite Htr; reflexivity |].
    repeat (split; [assumption |]). exact Hp.
Qed.

(** X7: when the recycler of staging buffers is empty, a staging buffer
    of exactly the standard size that is given back is the one the next
    request of at most the standard size gets: the same instance,
    emptied, without any construction, and the recycler is empty again. *)
Theorem recycled_staging_buffer_is_reused (buffer : positive) (b : DxvkStagingBuffer)
    (size : N) (s : State) :
  recycled StagingBuffers s = [] ->
  stagingBuffers s !! buffer = Some b ->
  m_bufferSize b = DefaultStagingBufferSize ->
  size <= DefaultStagingBufferSize ->
  exists s',
    (recycleStagingBuffer buffer ;; allocStagingBuffer size) s = Some (buffer, s') /\
    emitted s s' [EvReturn StagingBuffers buffer; EvReset buffer;
                  EvRetrieve StagingBuffers (Some buffer)] /\
    stagingBuffers s' = <[buffer := staging_reset_state b]> (stagingBuffers s) /\
    buffers s' = buffers s /\
    (forall p, recycled p s' = recycled p s).
Proof.
  intros Hempty Hb Hsize Hle.
  unfold recycleStagingBuffer, allocStagingBuffer. unfold_prims. cbn.
  rewrite Hb. cbn. rewrite Hsize, N.eqb_refl. cbn. rewrite Hb. cbn.
  apply N.leb_le in Hle. rewrite Hle. cbn.
  eexists. split; [reflexivity |].
  split; [reflexivity |]. split; [reflexivity |]. split; [reflexivity |].
  intros []; reflexivity.
Qed.

End Pooling.

(** ** Instances of the further properties *)

(** X1 on the sample submissions: of two submissions of list 1, the
    accepted one is tracked. *)
Lemma tracked_are_accepted_submissions_witness :
  @run env_strict sample_submissions sample_device = Some sample_after_submissions /\
  tracked_lists (trace sample_after_submissions) = [1%positive] /\
  m_submissionQueue sample_after_submissions = [1%positive].
Proof.
  split; [vm_compute; reflexivity |].
  destruct (@tracked_are_accepted_submissions env_strict sample_adapter sample_features 1 2
              sample_submissions sample_after_submissions) as [Htr Hq];
    [vm_compute; reflexivity |].
  rewrite Htr, Hq. split; vm_compute; reflexivity.
Defined.

(** X2 on the sample submissions: the refused submission is logged, the
    refused present is not. *)
Lemma logged_are_refused_submissions_witness :
  @run env_strict sample_submissions sample_device = Some sample_after_submissions /\
  logged_statuses (trace sample_after_submissions) = [VK_ERROR_DEVICE_LOST].
Proof.
  split; [vm_compute; reflexivity |].
  rewrite (@logged_are_refused_submissions env_strict sample_adapter sample_features 1 2
             sample_submissions sample_after_submissions); vm_compute; reflexivity.
Defined.

(** X3 on the sample submissions: two submissions, one of them refused,
    and a counter of two. *)
Lemma submit_counter_counts_attempts_witness :
  @run env_strict sample_submissions sample_device = Some sample_after_submissions /\
  Forall records_no_submits sample_submissions /\
  submissions sample_after_submissions = 2 /\
  getCtr (m_statCounters sample_after_submissions) QueueSubmitCount = 2.
Proof.
  split; [vm_compute; reflexivity |].
  assert (Hops : Forall records_no_submits sample_submissions) by (repeat constructor).
  split; [exact Hops |].
  split; [vm_compute; reflexivity |].
  destruct (@submit_counter_counts_attempts env_strict sample_adapter sample_features 1 2
              sample_submissions sample_after_submissions) as [Hctr _];
    [vm_compute; reflexivity | exact Hops |].
  rewrite Hctr. vm_compute; reflexivity.
Defined.

(** X4 on the sample session, with an allocator reporting 4096 bytes
    allocated and 1024 used and a pipeline manager reporting 3 graphics
    pipelines and 1 compute pipeline: the snapshot reports these, one
    submission and two presents. *)
Lemma getStatCounters_snapshot_witness :
  counters_bounded sample_in_use /\
  exists result s',
    getStatCounters sample_in_use = Some (result, s') /\
    getCtr result MemoryAllocated = 4096 /\
    getCtr result MemoryUsed = 1024 /\
    getCtr result PipeCountGraphics = 3 /\
    getCtr result PipeCountCompute = 1 /\
    getCtr result QueueSubmitCount = 1 /\
    getCtr result QueuePresentCount = 2 /\
    getCurrentFrameId sample_in_use = 2.
Proof.
  assert (Hb : counters_bounded sample_in_use).
  { apply with_live_statistics_bounded.
    apply (@reachable_counters_bounded env_strict sample_adapter sample_features 1 2
             sample_session).
    vm_compute; reflexivity. }
  split; [exact Hb |].
  destruct (getStatCounters_snapshot sample_in_use Hb)
    as (result & Hrun & Hma & Hmu & Hpg & Hpc & Hrest & Hid).
  exists result. eexists. split; [exact Hrun |].
  rewrite Hma, Hmu, Hpg, Hpc, (Hrest QueueSubmitCount eq_refl), Hid,
    (Hrest QueuePresentCount eq_refl).
  repeat split; vm_compute; reflexivity.
Defined.

(** X5 on the first request for a staging buffer on the sample device. *)
Lemma pooling_calls_take_no_lock_witness :
  is_pooling_call (OpAllocStagingBuffer 64) = true /\
  @step env_accepts (OpAllocStagingBuffer 64) sample_device = Some sample_staging_fresh /\
  exists evs,
    emitted sample_device sample_staging_fresh evs /\ count_events is_lock_event evs = 0.
Proof.
  split; [reflexivity |]. split; [vm_compute; reflexivity |].
  apply (@pooling_calls_take_no_lock env_accepts (OpAllocStagingBuffer 64)
           sample_device sample_staging_fresh);
    [reflexivity | vm_compute; reflexivity].
Defined.

(** X6 on a request of 100000 bytes while the recycler holds a buffer:
    a buffer of 100000 bytes is constructed and the recycler still holds
    its buffer. *)
Lemma allocStagingBuffer_constructs_witness :
  @DefaultStagingBufferSize env_accepts < 100000 /\
  recycled StagingBuffers sample_staging_recycled = [1%positive] /\
  exists staging s',
    @allocStagingBuffer env_accepts 100000 sample_staging_recycled = Some (staging, s') /\
    staging_size_is s' staging 100000 /\
    recycled StagingBuffers s' = [1%positive].
Proof.
  split; [reflexivity |]. split; [vm_compute; reflexivity |].
  destruct (@allocStagingBuffer_constructs env_accepts 100000 sample_staging_recycled)
    as (staging & buffer & s' & Hrun & _ & _ & _ & _ & Hst & Hp); [left; reflexivity |].
  exists staging, s'. split; [exact Hrun |]. split.
  - unfold staging_size_is. rewrite Hst, lookup_insert_eq. eexists. split; reflexivity.
  - rewrite (Hp StagingBuffers). vm_compute; reflexivity.
Defined.

(** X7 on the sample staging buffer with 100 bytes written, the
    recycler being empty: given back and requested again, it is the same
    buffer, emptied. *)
Lemma recycled_staging_buffer_is_reused_witness :
  recycled StagingBuffers sample_staging_used = [] /\
  stagingBuffers sample_staging_used !! 1%positive
    = Some {| m_buffer := 1; m_bufferSize := 65536; m_bufferOffset := 100 |} /\
  exists s',
    (@recycleStagingBuffer env_accepts 1 ;; @allocStagingBuffer env_accepts 1024)
      sample_staging_used = Some (1%positive, s') /\
    staging_is_reset s' 1.
Proof.
  split; [vm_compute; reflexivity |].
  split; [vm_compute; reflexivity |].
  destruct (@recycled_staging_buffer_is_reused env_accepts 1
              {| m_buffer := 1; m_bufferSize := 65536; m_bufferOffset := 100 |}
              1024 sample_staging_used)
    as (s' & Hrun & _ & Hst & _);
    [vm_compute; reflexivity | vm_compute; reflexivity | reflexivity | discriminate |].
  exists s'. split; [exact Hrun |].
  unfold staging_is_reset. rewrite Hst, lookup_insert_eq. eexists. split; reflexivity.
Defined.
